(** * Poedit editing area: plural-form labels and item/text-control synchronisation

    A shallow embedding of [src/editing_area.cpp]: the entered-text
    normalisation ([PreprocessEnteredTextForItem]), the scoped event-handler
    suppression ([EventHandlerDisabler], [SetTranslationValue]), the rebuild
    of the plural notebook ([EditingArea::RecreatePluralTextCtrls]) and the
    two synchronisation directions ([EditingArea::UpdateToTextCtrl],
    [EditingArea::UpdateFromTextCtrl]).

    Widgets are reduced to the state the synchronisation logic reads and
    writes: the plain text of a control and the enabled bit of its event
    handler.  Layout, fonts, syntax highlighting, tags and the error bar do
    not influence any value modelled here and are left out. *)

From Stdlib Require Import ZArith Ascii String DecimalString.
From stdpp Require Import base tactics option list.

Local Open Scope string_scope.
Local Open Scope list_scope.
Local Open Scope Z_scope.

(** ** wxString *)

Module wxString.

Definition newline : ascii := "010"%char.

(** [wxString::empty] *)
Definition empty (s : string) : bool :=
  match s with
  | EmptyString => true
  | String _ _ => false
  end.

(** [wxString::Last]: the last character; the library asserts on an empty
    string, which is [None] here. *)
Fixpoint Last (s : string) : option ascii :=
  match s with
  | EmptyString => None
  | String c EmptyString => Some c
  | String _ r => Last r
  end.

(** [wxString::RemoveLast()] with its default count of one. *)
Fixpoint RemoveLast (s : string) : string :=
  match s with
  | EmptyString => EmptyString
  | String _ EmptyString => EmptyString
  | String c r => String c (RemoveLast r)
  end.

(** [wxString::append(n, ch)] for [n = 1]. *)
Definition append1 (s : string) (c : ascii) : string :=
  String.append s (String c EmptyString).

(** [last_is s c] is the comparison [s.Last() == c]. *)
Definition last_is (s : string) (c : ascii) : bool :=
  match Last s with
  | Some d => Ascii.eqb d c
  | None => false
  end.

(** [operator==] on strings and on [wxArrayString]. *)
Definition eqb (a b : string) : bool := String.eqb a b.

Fixpoint array_eqb (a b : list string) : bool :=
  match a, b with
  | [], [] => true
  | x :: a', y :: b' => eqb x y && array_eqb a' b'
  | _, _ => false
  end.

(** [wxString::Format("%d", n)] *)
Definition of_int (n : Z) : string := NilZero.string_of_int (Z.to_int n).

End wxString.

(** [wxString] values are modelled as strings of bytes. *)
Abbreviation wxStr := string.

(** ** Catalog items *)

(** Modelled from the spec: the [CatalogItem] class is declared in
    [catalog.h], which is not part of the sources at hand.  Section 3 of the
    specification gives its fields (source text, optional plural source,
    the ordered translations and four flags) and says that the editing
    area only reads and writes these fields; the accessors below are
    therefore plain field reads and writes.  [GetTranslation n] is the
    [n]-th translation, the empty string when there is none, and
    [SetTranslation] writes the translation of index 0. *)
Record CatalogItem := mkCatalogItem {
  m_string : wxStr;
  m_hasPlural : bool;
  m_plural : wxStr;
  m_translations : list wxStr;
  m_isFuzzy : bool;
  m_isTranslated : bool;
  m_isModified : bool;
  m_isPreTranslated : bool
}.

Module Item.

Definition GetString (it : CatalogItem) : wxStr := m_string it.
Definition HasPlural (it : CatalogItem) : bool := m_hasPlural it.
Definition GetPluralString (it : CatalogItem) : wxStr := m_plural it.
Definition GetNumberOfTranslations (it : CatalogItem) : nat :=
  length (m_translations it).
Definition GetTranslations (it : CatalogItem) : list wxStr := m_translations it.
Definition GetTranslation (it : CatalogItem) (n : nat) : wxStr :=
  default EmptyString (m_translations it !! n).
Definition IsFuzzy (it : CatalogItem) : bool := m_isFuzzy it.
Definition IsTranslated (it : CatalogItem) : bool := m_isTranslated it.
Definition IsModified (it : CatalogItem) : bool := m_isModified it.
Definition IsPreTranslated (it : CatalogItem) : bool := m_isPreTranslated it.

Definition SetTranslations (str : list wxStr) (it : CatalogItem) : CatalogItem :=
  mkCatalogItem (m_string it) (m_hasPlural it) (m_plural it) str
    (m_isFuzzy it) (m_isTranslated it) (m_isModified it) (m_isPreTranslated it).

Definition SetTranslation (t : wxStr) (it : CatalogItem) : CatalogItem :=
  SetTranslations
    (match m_translations it with
     | [] => [t]
     | _ :: rest => t :: rest
     end) it.

Definition SetFuzzy (on : bool) (it : CatalogItem) : CatalogItem :=
  mkCatalogItem (m_string it) (m_hasPlural it) (m_plural it) (m_translations it)
    on (m_isTranslated it) (m_isModified it) (m_isPreTranslated it).

Definition SetTranslated (t : bool) (it : CatalogItem) : CatalogItem :=
  mkCatalogItem (m_string it) (m_hasPlural it) (m_plural it) (m_translations it)
    (m_isFuzzy it) t (m_isModified it) (m_isPreTranslated it).

Definition SetModified (m : bool) (it : CatalogItem) : CatalogItem :=
  mkCatalogItem (m_string it) (m_hasPlural it) (m_plural it) (m_translations it)
    (m_isFuzzy it) (m_isTranslated it) m (m_isPreTranslated it).

Definition SetPreTranslated (p : bool) (it : CatalogItem) : CatalogItem :=
  mkCatalogItem (m_string it) (m_hasPlural it) (m_plural it) (m_translations it)
    (m_isFuzzy it) (m_isTranslated it) (m_isModified it) p.

End Item.

(** ** Entered-text normalisation (lines 91-105) *)

(** does some basic processing of user input, e.g. to remove trailing \n *)
Definition PreprocessEnteredTextForItem (item : CatalogItem) (t : wxStr) : wxStr :=
  let orig := Item.GetString item in
  if negb (wxString.empty t) && negb (wxString.empty orig) then
    if wxString.last_is orig wxString.newline
       && negb (wxString.last_is t wxString.newline)
    then wxString.append1 t wxString.newline
    else if negb (wxString.last_is orig wxString.newline)
            && wxString.last_is t wxString.newline
    then wxString.RemoveLast t
    else t
  else t.

(** ** Text controls, events and the editing area *)

(** Modelled from the spec: [TranslationTextCtrl] ([text_control.h]) and the
    wxWidgets event handler are not part of the sources at hand.  Following
    sections 3 and 6 of the specification a slot holds its displayed text and
    can have its own text-changed notification switched off and on; writing
    a text raises the notification, which is delivered only while the
    handler is enabled. *)
Record TranslationTextCtrl := mkTextCtrl {
  plainText : wxStr;
  evtHandlerEnabled : bool
}.

(** A control of the editing area: [m_textTrans] or [m_textTransPlural[i]]. *)
Inductive Ctrl :=
| TextTrans
| TextTransPlural (i : nat).

(** What the editing area does to its controls and collaborators, in the
    order in which it happens. *)
Inductive Event :=
| EvSetEvtHandlerEnabled (c : Ctrl) (enabled : bool)
| EvSetPlainText (c : Ctrl) (value : wxStr)
| EvSetPlainTextUserWritten (c : Ctrl) (value : wxStr)
| EvUpdateFromTextCtrl
| EvSetFuzzy (on : bool)
| EvRefreshSelectedItems
| EvOnUpdatedFromTextCtrl (item : CatalogItem) (statisticsChanged : bool).

(** The members of [EditingArea] that the synchronisation reads or writes.
    [m_associatedList] stands for the list control and holds what
    [GetCurrentCatalogItem()] returns; [m_associatedToolbar] stands for the
    toolbar and holds its fuzzy toggle; [m_pluralNotebook] holds the page
    labels; [m_textTransSingularForm] is an index into [m_textTransPlural];
    [OnUpdatedFromTextCtrl] tells whether the callback is set; [trace]
    records the events. *)
Record EditingArea := mkEditingArea {
  m_associatedList : option CatalogItem;
  m_associatedToolbar : bool;
  m_dontAutoclearFuzzyStatus : bool;
  m_textOrig : wxStr;
  m_textOrigPlural : wxStr;
  m_textTrans : option TranslationTextCtrl;
  m_pluralNotebook : option (list wxStr);
  m_textTransPlural : list TranslationTextCtrl;
  m_textTransSingularForm : option nat;
  OnUpdatedFromTextCtrl : bool;
  trace : list Event
}.

Module EA.

Definition set_associatedList (v : option CatalogItem) (ea : EditingArea) :=
  mkEditingArea v (m_associatedToolbar ea) (m_dontAutoclearFuzzyStatus ea)
    (m_textOrig ea) (m_textOrigPlural ea) (m_textTrans ea) (m_pluralNotebook ea)
    (m_textTransPlural ea) (m_textTransSingularForm ea)
    (OnUpdatedFromTextCtrl ea) (trace ea).

Definition set_associatedToolbar (v : bool) (ea : EditingArea) :=
  mkEditingArea (m_associatedList ea) v (m_dontAutoclearFuzzyStatus ea)
    (m_textOrig ea) (m_textOrigPlural ea) (m_textTrans ea) (m_pluralNotebook ea)
    (m_textTransPlural ea) (m_textTransSingularForm ea)
    (OnUpdatedFromTextCtrl ea) (trace ea).

Definition set_dontAutoclearFuzzyStatus (v : bool) (ea : EditingArea) :=
  mkEditingArea (m_associatedList ea) (m_associatedToolbar ea) v
    (m_textOrig ea) (m_textOrigPlural ea) (m_textTrans ea) (m_pluralNotebook ea)
    (m_textTransPlural ea) (m_textTransSingularForm ea)
    (OnUpdatedFromTextCtrl ea) (trace ea).

Definition set_textOrig (v : wxStr) (ea : EditingArea) :=
  mkEditingArea (m_associatedList ea) (m_associatedToolbar ea)
    (m_dontAutoclearFuzzyStatus ea)
    v (m_textOrigPlural ea) (m_textTrans ea) (m_pluralNotebook ea)
    (m_textTransPlural ea) (m_textTransSingularForm ea)
    (OnUpdatedFromTextCtrl ea) (trace ea).

Definition set_textOrigPlural (v : wxStr) (ea : EditingArea) :=
  mkEditingArea (m_associatedList ea) (m_associatedToolbar ea)
    (m_dontAutoclearFuzzyStatus ea)
    (m_textOrig ea) v (m_textTrans ea) (m_pluralNotebook ea)
    (m_textTransPlural ea) (m_textTransSingularForm ea)
    (OnUpdatedFromTextCtrl ea) (trace ea).

Definition set_textTrans (v : option TranslationTextCtrl) (ea : EditingArea) :=
  mkEditingArea (m_associatedList ea) (m_associatedToolbar ea)
    (m_dontAutoclearFuzzyStatus ea)
    (m_textOrig ea) (m_textOrigPlural ea) v (m_pluralNotebook ea)
    (m_textTransPlural ea) (m_textTransSingularForm ea)
    (OnUpdatedFromTextCtrl ea) (trace ea).

Definition set_pluralNotebook (v : option (list wxStr)) (ea : EditingArea) :=
  mkEditingArea (m_associatedList ea) (m_associatedToolbar ea)
    (m_dontAutoclearFuzzyStatus ea)
    (m_textOrig ea) (m_textOrigPlural ea) (m_textTrans ea) v
    (m_textTransPlural ea) (m_textTransSingularForm ea)
    (OnUpdatedFromTextCtrl ea) (trace ea).

Definition set_textTransPlural (v : list TranslationTextCtrl) (ea : EditingArea) :=
  mkEditingArea (m_associatedList ea) (m_associatedToolbar ea)
    (m_dontAutoclearFuzzyStatus ea)
    (m_textOrig ea) (m_textOrigPlural ea) (m_textTrans ea) (m_pluralNotebook ea)
    v (m_textTransSingularForm ea)
    (OnUpdatedFromTextCtrl ea) (trace ea).

Definition set_textTransSingularForm (v : option nat) (ea : EditingArea) :=
  mkEditingArea (m_associatedList ea) (m_associatedToolbar ea)
    (m_dontAutoclearFuzzyStatus ea)
    (m_textOrig ea) (m_textOrigPlural ea) (m_textTrans ea) (m_pluralNotebook ea)
    (m_textTransPlural ea) v
    (OnUpdatedFromTextCtrl ea) (trace ea).

(** Appends one event to the trace. *)
Definition emit (e : Event) (ea : EditingArea) :=
  mkEditingArea (m_associatedList ea) (m_associatedToolbar ea)
    (m_dontAutoclearFuzzyStatus ea)
    (m_textOrig ea) (m_textOrigPlural ea) (m_textTrans ea) (m_pluralNotebook ea)
    (m_textTransPlural ea) (m_textTransSingularForm ea)
    (OnUpdatedFromTextCtrl ea) (trace ea ++ [e]).

(** Appends a list of events to the trace. *)
Definition emits (es : list Event) (ea : EditingArea) :=
  mkEditingArea (m_associatedList ea) (m_associatedToolbar ea)
    (m_dontAutoclearFuzzyStatus ea)
    (m_textOrig ea) (m_textOrigPlural ea) (m_textTrans ea) (m_pluralNotebook ea)
    (m_textTransPlural ea) (m_textTransSingularForm ea)
    (OnUpdatedFromTextCtrl ea) (trace ea ++ es).

(** Dereferencing a control pointer; [None] is a null or dangling one. *)
Definition ctrl (c : Ctrl) (ea : EditingArea) : option TranslationTextCtrl :=
  match c with
  | TextTrans => m_textTrans ea
  | TextTransPlural i => m_textTransPlural ea !! i
  end.

Definition put_ctrl (c : Ctrl) (v : TranslationTextCtrl) (ea : EditingArea) :=
  match c with
  | TextTrans => set_textTrans (Some v) ea
  | TextTransPlural i => set_textTransPlural (<[i:=v]> (m_textTransPlural ea)) ea
  end.

End EA.

(** Runs [body i] for [i = from, from+1, ..., from+count-1], stopping at the
    first failure: the shape of the counted [for] loops of the source. *)
Fixpoint for_loop {S : Type} (from count : nat) (body : nat -> S -> option S)
    (s : S) : option S :=
  match count with
  | O => Some s
  | Datatypes.S count' => s' ← body from s; for_loop (Datatypes.S from) count' body s'
  end.

(** ** Pull: [EditingArea::UpdateFromTextCtrl] (lines 659-733) *)

(** The loop of lines 675-681: the normalised text of every plural control
    is added to [str], and [allTranslated] drops to false at an empty one. *)
Definition ReadPluralTexts (item : CatalogItem)
    (ctrls : list TranslationTextCtrl) : list wxStr * bool :=
  fold_left
    (fun acc c =>
       let val := PreprocessEnteredTextForItem item (plainText c) in
       (acc.1 ++ [val], if wxString.empty val then false else acc.2))
    ctrls ([], true).

(** Lines 672-701.  The result is the item after the translations were
    stored, [allTranslated] and [anyTransChanged].  [None] is the null
    dereference of [m_textTrans] for an item without plural. *)
Definition ReadTranslations (item : CatalogItem) (ea : EditingArea)
    : option (CatalogItem * bool * bool) :=
  if Item.HasPlural item then
    let '(str, allTranslated) := ReadPluralTexts item (m_textTransPlural ea) in
    if negb (wxString.array_eqb str (Item.GetTranslations item))
    then Some (Item.SetTranslations str item, allTranslated, true)
    else Some (item, allTranslated, false)
  else
    txt ← m_textTrans ea;
    let newval := PreprocessEnteredTextForItem item (plainText txt) in
    let allTranslated := if wxString.empty newval then false else true in
    if negb (wxString.eqb newval (Item.GetTranslation item 0))
    then Some (Item.SetTranslation newval item, allTranslated, true)
    else Some (item, allTranslated, false).

(** Lines 708-732, after the early return. *)
Definition CommitUpdate (item : CatalogItem) (newfuzzy oldIsTranslated
    allTranslated : bool) (ea : EditingArea) : EditingArea :=
  let newfuzzy :=
    if Bool.eqb newfuzzy (Item.IsFuzzy item) && negb (m_dontAutoclearFuzzyStatus ea)
    then false else newfuzzy in
  let ea := EA.emit (EvSetFuzzy newfuzzy) (EA.set_associatedToolbar newfuzzy ea) in
  let '(item, statisticsChanged) :=
    if negb (Bool.eqb (Item.IsFuzzy item) newfuzzy)
    then (Item.SetFuzzy newfuzzy item, true)
    else (item, false) in
  let '(item, statisticsChanged) :=
    if negb (Bool.eqb oldIsTranslated allTranslated)
    then (Item.SetTranslated allTranslated item, true)
    else (item, statisticsChanged) in
  let item := Item.SetModified true item in
  let item := Item.SetPreTranslated false item in
  let ea := EA.emit EvRefreshSelectedItems (EA.set_associatedList (Some item) ea) in
  if OnUpdatedFromTextCtrl ea
  then EA.emit (EvOnUpdatedFromTextCtrl item statisticsChanged) ea
  else ea.

Definition UpdateFromTextCtrl (ea : EditingArea) : option EditingArea :=
  let ea := EA.emit EvUpdateFromTextCtrl ea in
  match m_associatedList ea with
  | None => Some ea
  | Some item =>
    let newfuzzy := m_associatedToolbar ea in
    let oldIsTranslated := Item.IsTranslated item in
    '(item, allTranslated, anyTransChanged) ← ReadTranslations item ea;
    let ea := EA.set_associatedList (Some item) ea in
    if Bool.eqb (Item.IsFuzzy item) newfuzzy && negb anyTransChanged
    then Some ea
    else Some (CommitUpdate item newfuzzy oldIsTranslated allTranslated ea)
  end.

(** ** Scoped suppression and push (lines 52-73 and 590-656) *)

(** Modelled from the spec: [EditingArea::UndoableEdit] is an enumerator of
    [editing_area.h], not part of the sources at hand; the specification
    only says that a flag selects the undoable write mode, so it is taken
    to be the lowest bit. *)
Definition UndoableEdit : Z := 1.

(** [wxEvtHandler::SetEvtHandlerEnabled] on the handler of control [c]. *)
Definition SetEvtHandlerEnabled (c : Ctrl) (enabled : bool) (ea : EditingArea)
    : option EditingArea :=
  txt ← EA.ctrl c ea;
  Some (EA.emit (EvSetEvtHandlerEnabled c enabled)
          (EA.put_ctrl c (mkTextCtrl (plainText txt) enabled) ea)).

(** Delivery of the [wxEVT_TEXT] raised by control [c]: the handlers bound
    at lines 294 and 499 call [UpdateFromTextCtrl], unless the event handler
    of the control is disabled. *)
Definition ProcessTextEvent (c : Ctrl) (ea : EditingArea) : option EditingArea :=
  txt ← EA.ctrl c ea;
  if evtHandlerEnabled txt then UpdateFromTextCtrl ea else Some ea.

Definition SetPlainText (c : Ctrl) (value : wxStr) (ea : EditingArea)
    : option EditingArea :=
  txt ← EA.ctrl c ea;
  ProcessTextEvent c
    (EA.emit (EvSetPlainText c value)
       (EA.put_ctrl c (mkTextCtrl value (evtHandlerEnabled txt)) ea)).

Definition SetPlainTextUserWritten (c : Ctrl) (value : wxStr) (ea : EditingArea)
    : option EditingArea :=
  txt ← EA.ctrl c ea;
  ProcessTextEvent c
    (EA.emit (EvSetPlainTextUserWritten c value)
       (EA.put_ctrl c (mkTextCtrl value (evtHandlerEnabled txt)) ea)).

(** Lines 62-73.  The constructor of [EventHandlerDisabler] runs first, its
    destructor last. *)
Definition SetTranslationValue (c : Ctrl) (value : wxStr) (flags : Z)
    (ea : EditingArea) : option EditingArea :=
  ea ← SetEvtHandlerEnabled c false ea;
  ea ← (if negb (Z.land flags UndoableEdit =? 0)
        then SetPlainTextUserWritten c value ea
        else SetPlainText c value ea);
  SetEvtHandlerEnabled c true ea.

Definition UpdateToTextCtrl (item : CatalogItem) (flags : Z) (ea : EditingArea)
    : option EditingArea :=
  let ea := EA.set_textOrig (Item.GetString item) ea in
  ea ← (if Item.HasPlural item then
          let ea := EA.set_textOrigPlural (Item.GetPluralString item) ea in
          let formsCnt := length (m_textTransPlural ea) in
          ea ← for_loop 0 formsCnt
                 (fun j => SetTranslationValue (TextTransPlural j) EmptyString flags)
                 ea;
          for_loop 0 (Nat.min formsCnt (Item.GetNumberOfTranslations item))
            (fun i => SetTranslationValue (TextTransPlural i)
                        (Item.GetTranslation item i) flags)
            ea
        else
          match m_textTrans ea with
          | Some _ => SetTranslationValue TextTrans (Item.GetTranslation item 0) flags ea
          | None => Some ea
          end);
  (* by default, editing fuzzy item unfuzzies it *)
  Some (EA.set_dontAutoclearFuzzyStatus false ea).

(** ** Plural form labels: [EditingArea::RecreatePluralTextCtrls] (lines 415-511) *)

(** The three locals of lines 431-433. *)
Record Examples := mkExamples {
  examples : wxStr;
  firstExample : Z;
  examplesCnt : Z
}.

Definition maxExamplesCnt : Z := 5.

(** The loop of lines 437-453, entered at [example] with [count] iterations
    left; the [break] of line 446 ends it early. *)
Fixpoint ScanExamples (evaluate : Z -> Z) (form : Z) (count : nat) (example : Z)
    (s : Examples) : Examples :=
  match count with
  | O => s
  | S count' =>
    if evaluate example =? form then
      let cnt := examplesCnt s + 1 in
      let first := if cnt =? 1 then example else firstExample s in
      if cnt =? maxExamplesCnt then
        mkExamples (String.append (examples s) "…") first cnt
      else if cnt =? 1 then
        ScanExamples evaluate form count' (example + 1)
          (mkExamples (String.append (examples s) (wxString.of_int example))
             first cnt)
      else
        ScanExamples evaluate form count' (example + 1)
          (mkExamples
             (String.append (examples s)
                (String.append ", " (wxString.of_int example)))
             first cnt)
    else ScanExamples evaluate form count' (example + 1) s
  end.

(** Lines 431-454: find example numbers that would use this plural form. *)
Definition FindExamples (calc : option (Z -> Z)) (formsCount form : Z) : Examples :=
  let s := mkExamples EmptyString (-1) 0 in
  match calc with
  | Some evaluate =>
    if 1 <? formsCount then ScanExamples evaluate form 1000 0 s else s
  | None => s
  end.

(** Lines 456-491; the message catalogue lookup [_()] is the identity. *)
Definition Describe (formsCount form : Z) (s : Examples) : wxStr :=
  if formsCount =? 1 then "Everything"
  else if examplesCnt s =? 0 then String.append "Form " (wxString.of_int form)
  else if examplesCnt s =? 1 then
    if (formsCount =? 2) && (firstExample s =? 1) then "Singular"
    else if firstExample s =? 0 then "Zero"
    else if firstExample s =? 1 then "One"
    else if firstExample s =? 2 then "Two"
    else String.append "n = " (examples s)
  else if (formsCount =? 2) && (examplesCnt s =? 2) && (firstExample s =? 0)
          && wxString.eqb (examples s) "0, 1" then "Singular"
  else if (formsCount =? 2) && negb (firstExample s =? 1)
          && (examplesCnt s =? maxExamplesCnt) then
    if (firstExample s =? 0) || (firstExample s =? 2) then "Plural" else "Other"
  else String.append "n → " (examples s).

(** Modelled from the spec: [Catalog] and [PluralFormsCalculator] are not
    part of the sources at hand.  Of a catalog the rebuild uses the
    evaluator made from its Plural-Forms header, absent when the header does
    not parse, and the number of plural forms. *)
Record Catalog := mkCatalog {
  PluralFormsCalculator_make : option (Z -> Z);
  GetPluralFormsCount : Z
}.

(** One iteration of the loop of lines 427-505. *)
Definition AddPluralForm (calc : option (Z -> Z)) (formsCount : Z)
    (ea : EditingArea) (form : nat) : EditingArea :=
  let s := FindExamples calc formsCount (Z.of_nat form) in
  let desc := Describe formsCount (Z.of_nat form) s in
  let txt := length (m_textTransPlural ea) in
  let ea := EA.set_textTransPlural
              (m_textTransPlural ea ++ [mkTextCtrl EmptyString true]) ea in
  let ea := EA.set_pluralNotebook
              (option_map (fun pages => pages ++ [desc]) (m_pluralNotebook ea)) ea in
  if (examplesCnt s =? 1) && (firstExample s =? 1)
  then EA.set_textTransSingularForm (Some txt) ea
  else ea.

Definition RecreatePluralTextCtrls (catalog : Catalog) (ea : EditingArea)
    : EditingArea :=
  match m_pluralNotebook ea with
  | None => ea
  | Some _ =>
    let ea := EA.set_textTransPlural [] ea in
    let ea := EA.set_pluralNotebook (Some []) ea in
    let ea := EA.set_textTransSingularForm None ea in
    let calc := PluralFormsCalculator_make catalog in
    let formsCount := GetPluralFormsCount catalog in
    let ea := fold_left (AddPluralForm calc formsCount)
                (seq 0 (Z.to_nat formsCount)) ea in
    (* as a fallback, assume 1st form for plural entries is the singular *)
    match m_textTransSingularForm ea, m_textTransPlural ea with
    | None, _ :: _ => EA.set_textTransSingularForm (Some 0%nat) ea
    | _, _ => ea
    end
  end.

(** ** Sample values *)

Definition english_like (n : Z) : Z := if n =? 1 then 0 else 1.

Definition edit_area (ctrls : list TranslationTextCtrl) : EditingArea :=
  mkEditingArea None false false EmptyString EmptyString
    (Some (mkTextCtrl EmptyString true)) (Some []) ctrls None true [].


Definition sample_item (source : wxStr) (translations : list wxStr)
    (fuzzy translated : bool) : CatalogItem :=
  mkCatalogItem source false EmptyString translations fuzzy translated false false.

Definition sample_plural_item (translations : list wxStr) : CatalogItem :=
  mkCatalogItem "file" true "files" translations false false false false.

(** "Hello" followed by a newline. *)
Definition hello_nl : wxStr := wxString.append1 "Hello" wxString.newline.

(** "Hi" followed by a newline. *)
Definition hi_nl : wxStr := wxString.append1 "Hi" wxString.newline.

(** The normalisation rule in the words of the specification, section 4.2
    step 1, which has no condition on either text being empty: the result
    depends only on whether the source and the entered text end with a
    newline. *)
Definition normalization_as_specified (source entered : wxStr) : wxStr :=
  if wxString.last_is source wxString.newline
     && negb (wxString.last_is entered wxString.newline)
  then wxString.append1 entered wxString.newline
  else if negb (wxString.last_is source wxString.newline)
          && wxString.last_is entered wxString.newline
  then wxString.RemoveLast entered
  else entered.


(** ** Vocabulary of the statements *)

(** The normalised texts of the slots that a pull reads for [item]: one per
    plural control for an item with plural, the text of [m_textTrans]
    otherwise ([None] when that control does not exist). *)
Definition EnteredTexts (item : CatalogItem) (ea : EditingArea)
    : option (list wxStr) :=
  if Item.HasPlural item then
    Some (map (fun c => PreprocessEnteredTextForItem item (plainText c))
            (m_textTransPlural ea))
  else
    txt ← m_textTrans ea;
    Some [PreprocessEnteredTextForItem item (plainText txt)].

(** The stored translations these texts are compared with. *)
Definition StoredTexts (item : CatalogItem) : list wxStr :=
  if Item.HasPlural item then Item.GetTranslations item
  else [Item.GetTranslation item 0].

(** Every text of the list is non-empty. *)
Definition all_nonempty (texts : list wxStr) : bool :=
  forallb (fun v => negb (wxString.empty v)) texts.

(** The item after lines 686 and 699 stored the texts read from the slots. *)
Definition StoreTexts (texts : list wxStr) (item : CatalogItem) : CatalogItem :=
  if Item.HasPlural item then Item.SetTranslations texts item
  else Item.SetTranslation (hd "" texts) item.

(** The item after the commit of lines 711-727, for the fuzzy state
    [newfuzzy] read from the toolbar. *)
Definition CommittedItem (item : CatalogItem) (newfuzzy oldIsTranslated
    allTranslated dontAutoclear : bool) : CatalogItem :=
  mkCatalogItem (m_string item) (m_hasPlural item) (m_plural item)
    (m_translations item)
    (if Bool.eqb newfuzzy (m_isFuzzy item) && negb dontAutoclear
     then false else newfuzzy)
    (if Bool.eqb oldIsTranslated allTranslated then m_isTranslated item
     else allTranslated)
    true false.

(** The test of line 703 on the state a pull starts from: true when the pull
    returns early. *)
Definition pull_is_noop (item : CatalogItem) (texts : list wxStr)
    (ea : EditingArea) : bool :=
  Bool.eqb (Item.IsFuzzy item) (m_associatedToolbar ea)
  && wxString.array_eqb texts (StoredTexts item).

(** A trace made of scoped writes only: each write of a text into a control
    stands between the disabling and the re-enabling of the event handler of
    that same control. *)
Inductive ScopedWrites : list Event -> Prop :=
| ScopedWrites_nil : ScopedWrites []
| ScopedWrites_plain c value evs :
    ScopedWrites evs ->
    ScopedWrites (EvSetEvtHandlerEnabled c false :: EvSetPlainText c value
                  :: EvSetEvtHandlerEnabled c true :: evs)
| ScopedWrites_user c value evs :
    ScopedWrites evs ->
    ScopedWrites (EvSetEvtHandlerEnabled c false
                  :: EvSetPlainTextUserWritten c value
                  :: EvSetEvtHandlerEnabled c true :: evs).

(** The event of the write of line 70 or 72, chosen by the flags. *)
Definition write_event (flags : Z) (c : Ctrl) (value : wxStr) : Event :=
  if negb (Z.land flags UndoableEdit =? 0)
  then EvSetPlainTextUserWritten c value
  else EvSetPlainText c value.

(** The three events of one call of [SetTranslationValue]. *)
Definition scoped_write (flags : Z) (c : Ctrl) (value : wxStr) : list Event :=
  [EvSetEvtHandlerEnabled c false; write_event flags c value;
   EvSetEvtHandlerEnabled c true].

(** The plural controls after the controls [from], ..., [from+count-1] were
    given the texts [f from], ..., with their handlers enabled again. *)
Fixpoint written (f : nat -> wxStr) (from count : nat)
    (ctrls : list TranslationTextCtrl) : list TranslationTextCtrl :=
  match count with
  | O => ctrls
  | S count' => written f (S from) count' (<[from := mkTextCtrl (f from) true]> ctrls)
  end.

(** A push followed at once by a pull. *)
Definition push_then_pull (item : CatalogItem) (flags : Z) (ea : EditingArea)
    : option EditingArea :=
  ea ← UpdateToTextCtrl item flags ea; UpdateFromTextCtrl ea.

(** An editing area showing [item] in the plural controls [ctrls], with the
    fuzzy toggle of the toolbar at [toolbar]. *)
Definition bound_area (item : CatalogItem) (toolbar : bool)
    (txt : wxStr) (ctrls : list wxStr) : EditingArea :=
  mkEditingArea (Some item) toolbar false EmptyString EmptyString
    (Some (mkTextCtrl txt true)) (Some [])
    (map (fun v => mkTextCtrl v true) ctrls) None true [].

(** The fuzzy and translated item "Hello\n" whose stored translation "Hi"
    lacks the final newline, shown in an editing area whose fuzzy toggle
    agrees with the item. *)
Definition unnormalised_item : CatalogItem :=
  mkCatalogItem hello_nl false "" ["Hi"] true true false false.

Definition unnormalised_area : EditingArea :=
  bound_area unnormalised_item true "" [].

(** The controls fit the item: as many plural controls as stored
    translations for an item with plural, an existing [m_textTrans]
    otherwise. *)
Definition slots_fit (item : CatalogItem) (ea : EditingArea) : bool :=
  if Item.HasPlural item
  then Nat.eqb (length (m_textTransPlural ea)) (Item.GetNumberOfTranslations item)
  else match m_textTrans ea with Some _ => true | None => false end.

(** The label that the rebuild gives to plural form [form]. *)
Definition form_label (calc : option (Z -> Z)) (formsCount : Z) (form : nat)
    : wxStr :=
  Describe formsCount (Z.of_nat form) (FindExamples calc formsCount (Z.of_nat form)).

(** The texts of the slots that a pull reads for [item], as entered. *)
Definition RawTexts (item : CatalogItem) (ea : EditingArea)
    : option (list wxStr) :=
  if Item.HasPlural item then Some (map plainText (m_textTransPlural ea))
  else txt ← m_textTrans ea; Some [plainText txt].

(** The trace of the two loops of lines 610-617. *)
Definition plural_push_events (item : CatalogItem) (flags : Z) (n : nat)
    : list Event :=
  flat_map (fun j => scoped_write flags (TextTransPlural j) "") (seq 0 n)
  ++ flat_map
       (fun i => scoped_write flags (TextTransPlural i) (Item.GetTranslation item i))
       (seq 0 (Nat.min n (Item.GetNumberOfTranslations item))).

(** ** Vocabulary of the further statements *)

(** The sample numbers 0..999 that [evaluate] maps to [form], ascending. *)
Definition form_examples (evaluate : Z -> Z) (form : Z) : list Z :=
  List.filter (fun n => evaluate n =? form) (seqZ 0 1000).

(** The loop of lines 437-453 run over the matching numbers only. *)
Fixpoint ScanMatches (matches : list Z) (s : Examples) : Examples :=
  match matches with
  | [] => s
  | example :: rest =>
    let cnt := examplesCnt s + 1 in
    let first := if cnt =? 1 then example else firstExample s in
    if cnt =? maxExamplesCnt then
      mkExamples (String.append (examples s) "…") first cnt
    else if cnt =? 1 then
      ScanMatches rest
        (mkExamples (String.append (examples s) (wxString.of_int example))
           first cnt)
    else
      ScanMatches rest
        (mkExamples
           (String.append (examples s)
              (String.append ", " (wxString.of_int example)))
           first cnt)
  end.

(** The text of the examples: the first four matching numbers separated by
    a comma and a blank, followed by the ellipsis when there is a fifth. *)
Definition examples_text (matches : list Z) : wxStr :=
  match matches with
  | [] => ""
  | n :: rest =>
    let listed :=
      fold_left
        (fun acc m => String.append acc (String.append ", " (wxString.of_int m)))
        (take 3 rest) (wxString.of_int n) in
    if (5 <=? length matches)%nat then String.append listed "…" else listed
  end.

(** The test of line 503: the scan found the single example 1. *)
Definition is_singular_form (calc : option (Z -> Z)) (formsCount : Z) (form : nat)
    : bool :=
  (examplesCnt (FindExamples calc formsCount (Z.of_nat form)) =? 1)
  && (firstExample (FindExamples calc formsCount (Z.of_nat form)) =? 1).

(** A three-form evaluator of the Slavic kind: form 0 for 1, 21, 31, ...,
    form 1 for 2-4, 22-24, ..., form 2 for the rest. *)
Definition slavic_like (n : Z) : Z :=
  if (n mod 10 =? 1) && negb (n mod 100 =? 11) then 0
  else if (2 <=? n mod 10) && (n mod 10 <=? 4)
          && ((n mod 100 <? 10) || (20 <=? n mod 100))
  then 1 else 2.

(** The last form of [forms] that passes the test of line 503, [acc] when
    there is none. *)
Definition last_singular_form (calc : option (Z -> Z)) (formsCount : Z)
    (forms : list nat) (acc : option nat) : option nat :=
  fold_left (fun acc f => if is_singular_form calc formsCount f then Some f else acc)
    forms acc.

(** ** [EditingArea::CopyFromSingular] (lines 580-587) *)

(** [focus] is the result of the [dynamic_cast] of line 582: the focused
    window when it is one of the translation controls, nothing otherwise.
    The write of line 586 is not inside an [EventHandlerDisabler]. *)
Definition CopyFromSingular (focus : option Ctrl) (ea : EditingArea)
    : option EditingArea :=
  match focus, m_textTransSingularForm ea with
  | Some current, Some singular =>
    src ← m_textTransPlural ea !! singular;
    SetPlainTextUserWritten current (plainText src) ea
  | _, _ => Some ea
  end.

(** The events of lines 714-732 for the committed item [item'], the fuzzy
    and translated flags [fuzzy] and [translated] the item had before, and
    the callback being set or not. *)
Definition commit_events (item' : CatalogItem) (fuzzy translated callback : bool)
    : list Event :=
  [EvSetFuzzy (Item.IsFuzzy item'); EvRefreshSelectedItems]
  ++ (if callback
      then [EvOnUpdatedFromTextCtrl item'
              (negb (Bool.eqb fuzzy (Item.IsFuzzy item'))
               || negb (Bool.eqb translated (Item.IsTranslated item')))]
      else []).

(** A push followed by a write of [value] into control [c] that is not
    guarded by a disabler, as the text control does for what the user
    types. *)
Definition push_then_edit (item : CatalogItem) (flags : Z) (c : Ctrl)
    (value : wxStr) (ea : EditingArea) : option EditingArea :=
  ea ← UpdateToTextCtrl item flags ea; SetPlainTextUserWritten c value ea.
(** * Properties *)

(** ** Strings *)

Lemma empty_true (s : wxStr) : wxString.empty s = true <-> s = "".
Proof. destruct s; simpl; split; congruence. Qed.

Lemma empty_false (s : wxStr) : wxString.empty s = false <-> s <> "".
Proof. destruct s; simpl; split; congruence. Qed.

Lemma eqb_eq (a b : wxStr) : wxString.eqb a b = true <-> a = b.
Proof. apply String.eqb_eq. Qed.

Lemma array_eqb_eq (a b : list wxStr) : wxString.array_eqb a b = true <-> a = b.
Proof.
  revert b; induction a as [|x a IH]; intros [|y b]; simpl;
    try (split; congruence).
  rewrite andb_true_iff, eqb_eq, IH. split.
  - intros [-> ->]; reflexivity.
  - intros [= -> ->]; split; reflexivity.
Qed.

Lemma array_eqb_refl (a : list wxStr) : wxString.array_eqb a a = true.
Proof. apply array_eqb_eq; reflexivity. Qed.

Lemma array_eqb_neq (a b : list wxStr) : wxString.array_eqb a b = false <-> a <> b.
Proof.
  rewrite <- array_eqb_eq. destruct (wxString.array_eqb a b); split; congruence.
Qed.

(** Removing the last character undoes appending it. *)
Lemma RemoveLast_append1 (s : wxStr) (c : ascii) :
  wxString.RemoveLast (wxString.append1 s c) = s.
Proof.
  unfold wxString.append1. induction s as [|a s IH]; simpl; [reflexivity|].
  rewrite IH. destruct s; reflexivity.
Qed.

(** A string that ends in [c] is what is left without its last character,
    followed by [c]: [RemoveLast] takes off that one character only. *)
Lemma append1_RemoveLast (s : wxStr) (c : ascii) :
  wxString.last_is s c = true -> wxString.append1 (wxString.RemoveLast s) c = s.
Proof.
  unfold wxString.last_is, wxString.append1.
  induction s as [|a s IH]; simpl; [discriminate|].
  destruct s as [|b s]; simpl in *.
  - intros H. apply Ascii.eqb_eq in H. subst; reflexivity.
  - intros H. rewrite (IH H). reflexivity.
Qed.

Lemma last_is_append1 (s : wxStr) (c d : ascii) :
  wxString.last_is (wxString.append1 s c) d = Ascii.eqb c d.
Proof.
  unfold wxString.last_is, wxString.append1.
  induction s as [|a s IH]; simpl; [reflexivity|].
  destruct s; simpl in *; exact IH.
Qed.

Lemma empty_append1 (s : wxStr) (c : ascii) :
  wxString.empty (wxString.append1 s c) = false.
Proof. destruct s; reflexivity. Qed.

(** ** The entered-text normalisation *)

(** The normalisation is idle unless both texts are non-empty. *)
Lemma Preprocess_empty_entered (item : CatalogItem) :
  PreprocessEnteredTextForItem item "" = "".
Proof. reflexivity. Qed.

Lemma Preprocess_empty_source (item : CatalogItem) (t : wxStr) :
  Item.GetString item = "" -> PreprocessEnteredTextForItem item t = t.
Proof.
  intros H. unfold PreprocessEnteredTextForItem. rewrite H. simpl.
  rewrite andb_false_r. reflexivity.
Qed.

(** A lone newline typed for a source without a final newline is
    normalised to the empty text. *)
Example Preprocess_lone_newline :
  PreprocessEnteredTextForItem (sample_item "Hello" [] false false)
    (String wxString.newline "") = "".
Proof. reflexivity. Qed.

(** C5, as stated, fails: for the source "Hello\n" the rule of the
    specification turns the empty entered text into a lone newline, while
    [PreprocessEnteredTextForItem] keeps it empty. *)
Lemma Preprocess_empty_entered_not_as_specified :
  normalization_as_specified hello_nl "" = String wxString.newline ""
  /\ PreprocessEnteredTextForItem (sample_item hello_nl [] false false) "" = ""
  /\ PreprocessEnteredTextForItem (sample_item hello_nl [] false false) ""
     <> normalization_as_specified
          (Item.GetString (sample_item hello_nl [] false false)) "".
Proof. repeat split; discriminate. Qed.

(** The same happens on the side of the source: with an empty source the
    trailing newline of the entered text stays. *)
Example Preprocess_empty_source_not_as_specified :
  PreprocessEnteredTextForItem (sample_item "" [] false false) hi_nl = hi_nl
  /\ normalization_as_specified "" hi_nl = "Hi".
Proof. split; reflexivity. Qed.

(** C5 (amended): for every item whose source text is non-empty and every
    non-empty entered text, [PreprocessEnteredTextForItem] returns the
    entered text with one newline appended when the source ends with a
    newline and the entered text does not; the entered text without its
    last character, which is the one trailing newline, when the source does
    not end with a newline and the entered text does; and the entered text
    itself otherwise.  On these inputs it agrees with the rule of the
    specification. *)
Theorem Preprocess_nonempty (item : CatalogItem) (t : wxStr) :
  t <> "" -> Item.GetString item <> "" ->
  let src_nl := wxString.last_is (Item.GetString item) wxString.newline in
  let t_nl := wxString.last_is t wxString.newline in
  let r := PreprocessEnteredTextForItem item t in
  (src_nl = true -> t_nl = false -> r = wxString.append1 t wxString.newline)
  /\ (src_nl = false -> t_nl = true ->
      r = wxString.RemoveLast t /\ wxString.append1 r wxString.newline = t)
  /\ (src_nl = t_nl -> r = t)
  /\ r = normalization_as_specified (Item.GetString item) t.
Proof.
  intros Ht Ho. simpl.
  apply empty_false in Ht. apply empty_false in Ho.
  unfold PreprocessEnteredTextForItem, normalization_as_specified.
  rewrite Ht, Ho. simpl.
  destruct (wxString.last_is (Item.GetString item) wxString.newline) eqn:Eo,
           (wxString.last_is t wxString.newline) eqn:El; simpl;
    repeat split; intros; try congruence.
  apply append1_RemoveLast. exact El.
Qed.

(** The two cases named by the specification: source "Hello\n" with entered
    "Hi" gives "Hi\n", and source "Hello" with entered "Hi\n" gives "Hi". *)
Lemma Preprocess_nonempty_witness :
  PreprocessEnteredTextForItem (sample_item hello_nl [] false false) "Hi" = hi_nl
  /\ PreprocessEnteredTextForItem (sample_item "Hello" [] false false) hi_nl = "Hi".
Proof.
  split.
  - refine (proj1 (Preprocess_nonempty (sample_item hello_nl [] false false) "Hi"
                     _ _) _ _); [discriminate | discriminate | reflexivity | reflexivity].
  - refine (proj1 (proj1 (proj2 (Preprocess_nonempty
                     (sample_item "Hello" [] false false) hi_nl _ _)) _ _));
      [discriminate | discriminate | reflexivity | reflexivity].
Defined.

(** ** Pull *)

Lemma ReadPluralTexts_acc (item : CatalogItem) (ctrls : list TranslationTextCtrl)
    (str : list wxStr) (b : bool) :
  fold_left
    (fun acc c =>
       let val := PreprocessEnteredTextForItem item (plainText c) in
       (acc.1 ++ [val], if wxString.empty val then false else acc.2))
    ctrls (str, b)
  = (str ++ map (fun c => PreprocessEnteredTextForItem item (plainText c)) ctrls,
     b && all_nonempty
            (map (fun c => PreprocessEnteredTextForItem item (plainText c)) ctrls)).
Proof.
  revert str b. induction ctrls as [|c ctrls IH]; intros str b; simpl.
  - rewrite app_nil_r, andb_true_r. reflexivity.
  - rewrite IH. rewrite <- app_assoc. simpl. f_equal.
    destruct (wxString.empty _), b; reflexivity.
Qed.

Lemma ReadPluralTexts_map (item : CatalogItem) (ctrls : list TranslationTextCtrl) :
  ReadPluralTexts item ctrls
  = (map (fun c => PreprocessEnteredTextForItem item (plainText c)) ctrls,
     all_nonempty
       (map (fun c => PreprocessEnteredTextForItem item (plainText c)) ctrls)).
Proof. unfold ReadPluralTexts. rewrite ReadPluralTexts_acc. reflexivity. Qed.

Lemma ReadTranslations_spec (item : CatalogItem) (ea : EditingArea)
    (texts : list wxStr) :
  EnteredTexts item ea = Some texts ->
  ReadTranslations item ea
  = Some (if wxString.array_eqb texts (StoredTexts item) then item
          else StoreTexts texts item,
          all_nonempty texts,
          negb (wxString.array_eqb texts (StoredTexts item))).
Proof.
  unfold EnteredTexts, ReadTranslations, StoredTexts, StoreTexts.
  destruct (Item.HasPlural item) eqn:Hp.
  - intros [= <-]. rewrite ReadPluralTexts_map.
    destruct (wxString.array_eqb _ _); reflexivity.
  - destruct (m_textTrans ea) as [txt|]; simpl; [|discriminate].
    intros [= <-]. simpl. rewrite !andb_true_r.
    destruct (wxString.eqb _ _); destruct (wxString.empty _); reflexivity.
Qed.

Lemma set_associatedList_same (ea : EditingArea) :
  EA.set_associatedList (m_associatedList ea) ea = ea.
Proof. destruct ea; reflexivity. Qed.

(** A pull on a bound item whose slots can be read: either the early return
    of line 705, which leaves everything but the trace as it was, or the
    commit of lines 708-732 on the item with the new texts stored. *)
Lemma UpdateFromTextCtrl_spec (ea : EditingArea) (item : CatalogItem)
    (texts : list wxStr) :
  m_associatedList ea = Some item ->
  EnteredTexts item ea = Some texts ->
  UpdateFromTextCtrl ea
  = Some (if pull_is_noop item texts ea
          then EA.emit EvUpdateFromTextCtrl ea
          else CommitUpdate
                 (if wxString.array_eqb texts (StoredTexts item) then item
                  else StoreTexts texts item)
                 (m_associatedToolbar ea) (Item.IsTranslated item)
                 (all_nonempty texts)
                 (EA.set_associatedList
                    (Some (if wxString.array_eqb texts (StoredTexts item)
                           then item else StoreTexts texts item))
                    (EA.emit EvUpdateFromTextCtrl ea))).
Proof.
  intros Hb Ht. unfold UpdateFromTextCtrl, pull_is_noop.
  replace (m_associatedList (EA.emit EvUpdateFromTextCtrl ea)) with (Some item)
    by (rewrite <- Hb; destruct ea; reflexivity).
  replace (EnteredTexts item ea)
    with (EnteredTexts item (EA.emit EvUpdateFromTextCtrl ea)) in Ht
    by (destruct ea; reflexivity).
  rewrite (ReadTranslations_spec _ _ _ Ht). simpl.
  replace (m_associatedToolbar (EA.emit EvUpdateFromTextCtrl ea))
    with (m_associatedToolbar ea) by (destruct ea; reflexivity).
  destruct (wxString.array_eqb texts (StoredTexts item)) eqn:Heq; simpl.
  - rewrite andb_true_r.
    destruct (Bool.eqb (Item.IsFuzzy item) (m_associatedToolbar ea)); simpl;
      [|reflexivity].
    f_equal. rewrite <- Hb. destruct ea; reflexivity.
  - rewrite !andb_false_r. reflexivity.
Qed.

Lemma CommitUpdate_item (item : CatalogItem) (newfuzzy old allTranslated : bool)
    (ea : EditingArea) :
  m_associatedList (CommitUpdate item newfuzzy old allTranslated ea)
  = Some (CommittedItem item newfuzzy old allTranslated
            (m_dontAutoclearFuzzyStatus ea)).
Proof.
  unfold CommitUpdate, CommittedItem. destruct ea, item; simpl.
  destruct newfuzzy, m_isFuzzy0, m_dontAutoclearFuzzyStatus0, old, allTranslated,
    OnUpdatedFromTextCtrl0; reflexivity.
Qed.

Lemma CommitUpdate_toolbar (item : CatalogItem) (newfuzzy old allTranslated : bool)
    (ea : EditingArea) :
  m_associatedToolbar (CommitUpdate item newfuzzy old allTranslated ea)
  = Item.IsFuzzy (CommittedItem item newfuzzy old allTranslated
                    (m_dontAutoclearFuzzyStatus ea)).
Proof.
  unfold CommitUpdate, CommittedItem. destruct ea, item; simpl.
  destruct newfuzzy, m_isFuzzy0, m_dontAutoclearFuzzyStatus0, old, allTranslated,
    OnUpdatedFromTextCtrl0; reflexivity.
Qed.

Lemma CommitUpdate_controls (item : CatalogItem) (newfuzzy old allTranslated : bool)
    (ea : EditingArea) :
  m_textTrans (CommitUpdate item newfuzzy old allTranslated ea) = m_textTrans ea
  /\ m_textTransPlural (CommitUpdate item newfuzzy old allTranslated ea)
     = m_textTransPlural ea.
Proof.
  unfold CommitUpdate. destruct ea, item; simpl.
  destruct newfuzzy, m_isFuzzy0, m_dontAutoclearFuzzyStatus0, old, allTranslated,
    OnUpdatedFromTextCtrl0; split; reflexivity.
Qed.

(** The texts a pull reads depend on the controls and, of the item, on its
    source text and on whether it has a plural. *)
Lemma EnteredTexts_ext (item item' : CatalogItem) (ea ea' : EditingArea) :
  m_string item' = m_string item -> m_hasPlural item' = m_hasPlural item ->
  m_textTrans ea' = m_textTrans ea ->
  m_textTransPlural ea' = m_textTransPlural ea ->
  EnteredTexts item' ea' = EnteredTexts item ea.
Proof.
  intros Hs Hp Ht Hl.
  unfold EnteredTexts, Item.HasPlural, PreprocessEnteredTextForItem, Item.GetString.
  rewrite Hs, Hp, Ht, Hl. reflexivity.
Qed.

Lemma ReadTranslations_None (item : CatalogItem) (ea : EditingArea) :
  EnteredTexts item ea = None -> ReadTranslations item ea = None.
Proof.
  unfold EnteredTexts, ReadTranslations.
  destruct (Item.HasPlural item); [discriminate|].
  destruct (m_textTrans ea); [discriminate|reflexivity].
Qed.

(** Once stored, the texts are the stored texts. *)
Lemma StoredTexts_StoreTexts (item : CatalogItem) (ea : EditingArea)
    (texts : list wxStr) :
  EnteredTexts item ea = Some texts ->
  StoredTexts (StoreTexts texts item) = texts.
Proof.
  unfold EnteredTexts, StoredTexts, StoreTexts.
  destruct (Item.HasPlural item) eqn:Hp.
  - intros _. unfold Item.HasPlural in *. simpl. rewrite Hp. reflexivity.
  - destruct (m_textTrans ea); [|discriminate]. intros [= <-].
    unfold Item.HasPlural, Item.SetTranslation in *. simpl. rewrite Hp.
    unfold Item.GetTranslation. simpl. destruct (m_translations item); reflexivity.
Qed.

(** C2: on a pull for a bound item, when the fuzzy toggle equals the fuzzy
    flag of the item and the normalised slot texts equal the stored
    translations, the pull returns early: the area is as before but for the
    trace, which gains the entry into [UpdateFromTextCtrl] and nothing else,
    so the item (translations and all four flags) is unchanged and neither
    the toolbar, the list nor the update callback is called.  Consequently
    a pull that follows a completed pull, with nothing edited in between,
    is such a no-op. *)
Theorem UpdateFromTextCtrl_noop :
  (forall (ea : EditingArea) (item : CatalogItem) (texts : list wxStr),
     m_associatedList ea = Some item ->
     EnteredTexts item ea = Some texts ->
     m_associatedToolbar ea = Item.IsFuzzy item ->
     texts = StoredTexts item ->
     exists ea',
       UpdateFromTextCtrl ea = Some ea'
       /\ ea' = EA.emit EvUpdateFromTextCtrl ea
       /\ m_associatedList ea' = Some item
       /\ m_associatedToolbar ea' = m_associatedToolbar ea
       /\ trace ea' = trace ea ++ [EvUpdateFromTextCtrl])
  /\ (forall ea ea1 : EditingArea,
        UpdateFromTextCtrl ea = Some ea1 ->
        exists ea2,
          UpdateFromTextCtrl ea1 = Some ea2
          /\ ea2 = EA.emit EvUpdateFromTextCtrl ea1
          /\ m_associatedList ea2 = m_associatedList ea1
          /\ m_associatedToolbar ea2 = m_associatedToolbar ea1
          /\ trace ea2 = trace ea1 ++ [EvUpdateFromTextCtrl]).
Proof.
  assert (Hnoop : forall ea item texts,
             m_associatedList ea = Some item ->
             EnteredTexts item ea = Some texts ->
             m_associatedToolbar ea = Item.IsFuzzy item ->
             texts = StoredTexts item ->
             UpdateFromTextCtrl ea = Some (EA.emit EvUpdateFromTextCtrl ea)).
  { intros ea item texts Hb Ht Hf Hs.
    rewrite (UpdateFromTextCtrl_spec _ _ _ Hb Ht). unfold pull_is_noop.
    rewrite Hf, Hs, array_eqb_refl, Bool.eqb_reflx. reflexivity. }
  assert (Hemit : forall ea e,
             m_associatedList (EA.emit e ea) = m_associatedList ea
             /\ m_associatedToolbar (EA.emit e ea) = m_associatedToolbar ea
             /\ trace (EA.emit e ea) = trace ea ++ [e]).
  { intros [] e; repeat split; reflexivity. }
  split.
  - intros ea item texts Hb Ht Hf Hs. eexists. split; [eauto|].
    split; [reflexivity|].
    destruct (Hemit ea EvUpdateFromTextCtrl) as (-> & -> & ->). auto.
  - intros ea ea1 H1.
    enough (UpdateFromTextCtrl ea1 = Some (EA.emit EvUpdateFromTextCtrl ea1)) as E.
    { eexists. split; [exact E|]. split; [reflexivity|]. apply Hemit. }
    destruct (m_associatedList ea) as [item|] eqn:Hb.
    + destruct (EnteredTexts item ea) as [texts|] eqn:Ht.
      * rewrite (UpdateFromTextCtrl_spec _ _ _ Hb Ht) in H1.
        injection H1 as <-.
        destruct (pull_is_noop item texts ea) eqn:Hn.
        -- unfold pull_is_noop in Hn. apply andb_true_iff in Hn as [Hf Hs].
           apply Bool.eqb_prop in Hf. apply array_eqb_eq in Hs.
           apply (Hnoop _ item texts).
           ++ destruct ea; exact Hb.
           ++ rewrite <- Ht. apply EnteredTexts_ext; destruct ea; reflexivity.
           ++ destruct ea; simpl in *; congruence.
           ++ exact Hs.
        -- set (item2 := if wxString.array_eqb texts (StoredTexts item)
                         then item else StoreTexts texts item).
           assert (Hs2 : StoredTexts item2 = texts).
           { subst item2. destruct (wxString.array_eqb _ _) eqn:E.
             - symmetry. apply array_eqb_eq. exact E.
             - apply (StoredTexts_StoreTexts _ _ _ Ht). }
           assert (Hsrc : m_string item2 = m_string item
                          /\ m_hasPlural item2 = m_hasPlural item).
           { subst item2. destruct (wxString.array_eqb _ _); [auto|].
             unfold StoreTexts. destruct (Item.HasPlural item); auto. }
           destruct Hsrc as [Hsrc Hpl].
           match goal with
           | |- UpdateFromTextCtrl (CommitUpdate ?i ?f ?o ?a ?e) = _ =>
               pose proof (CommitUpdate_item i f o a e) as Hi;
               pose proof (CommitUpdate_toolbar i f o a e) as Htb;
               pose proof (CommitUpdate_controls i f o a e) as [Hc1 Hc2]
           end.
           eapply (Hnoop _ _ texts); [exact Hi | | exact Htb | ].
           ++ rewrite <- Ht. apply EnteredTexts_ext; simpl.
              ** exact Hsrc.
              ** exact Hpl.
              ** rewrite Hc1. destruct ea; reflexivity.
              ** rewrite Hc2. destruct ea; reflexivity.
           ++ rewrite <- Hs2. unfold StoredTexts, Item.HasPlural,
                Item.GetTranslations, Item.GetTranslation. simpl. reflexivity.
      * unfold UpdateFromTextCtrl in H1.
        replace (m_associatedList (EA.emit EvUpdateFromTextCtrl ea))
          with (Some item) in H1 by (rewrite <- Hb; destruct ea; reflexivity).
        rewrite ReadTranslations_None in H1; [discriminate|].
        rewrite <- Ht. apply EnteredTexts_ext; destruct ea; reflexivity.
    + unfold UpdateFromTextCtrl in H1.
      replace (m_associatedList (EA.emit EvUpdateFromTextCtrl ea))
        with (@None CatalogItem) in H1 by (rewrite <- Hb; destruct ea; reflexivity).
      injection H1 as <-. unfold UpdateFromTextCtrl.
      replace (m_associatedList
                 (EA.emit EvUpdateFromTextCtrl (EA.emit EvUpdateFromTextCtrl ea)))
        with (@None CatalogItem) by (rewrite <- Hb; destruct ea; reflexivity).
      reflexivity.
Qed.

Lemma UpdateFromTextCtrl_noop_witness :
  exists ea',
    UpdateFromTextCtrl
      (bound_area (sample_item "Hello" ["Hi"] true true) true "Hi" []) = Some ea'
    /\ ea' = EA.emit EvUpdateFromTextCtrl
               (bound_area (sample_item "Hello" ["Hi"] true true) true "Hi" [])
    /\ m_associatedList ea' = Some (sample_item "Hello" ["Hi"] true true)
    /\ m_associatedToolbar ea' = true
    /\ trace ea' = [EvUpdateFromTextCtrl].
Proof.
  apply (proj1 UpdateFromTextCtrl_noop
           (bound_area (sample_item "Hello" ["Hi"] true true) true "Hi" [])
           (sample_item "Hello" ["Hi"] true true) ["Hi"]); reflexivity.
Defined.

(** A pull that is not a no-op commits: the item bound afterwards is the
    committed one. *)
Lemma UpdateFromTextCtrl_commit (ea : EditingArea) (item : CatalogItem)
    (texts : list wxStr) :
  m_associatedList ea = Some item ->
  EnteredTexts item ea = Some texts ->
  pull_is_noop item texts ea = false ->
  exists ea',
    UpdateFromTextCtrl ea = Some ea'
    /\ m_associatedList ea'
       = Some (CommittedItem
                 (if wxString.array_eqb texts (StoredTexts item) then item
                  else StoreTexts texts item)
                 (m_associatedToolbar ea) (Item.IsTranslated item)
                 (all_nonempty texts) (m_dontAutoclearFuzzyStatus ea))
    /\ m_associatedToolbar ea'
       = Item.IsFuzzy
           (CommittedItem
              (if wxString.array_eqb texts (StoredTexts item) then item
               else StoreTexts texts item)
              (m_associatedToolbar ea) (Item.IsTranslated item)
              (all_nonempty texts) (m_dontAutoclearFuzzyStatus ea)).
Proof.
  intros Hb Ht Hn. rewrite (UpdateFromTextCtrl_spec _ _ _ Hb Ht), Hn.
  eexists. split; [reflexivity|].
  rewrite CommitUpdate_item, CommitUpdate_toolbar.
  split; do 2 f_equal; destruct ea; reflexivity.
Qed.

Lemma StoreTexts_flags (texts : list wxStr) (item : CatalogItem) :
  m_isFuzzy (StoreTexts texts item) = m_isFuzzy item
  /\ m_isTranslated (StoreTexts texts item) = m_isTranslated item
  /\ m_isModified (StoreTexts texts item) = m_isModified item
  /\ m_isPreTranslated (StoreTexts texts item) = m_isPreTranslated item.
Proof. unfold StoreTexts. destruct (Item.HasPlural item); repeat split. Qed.

(** C3, as stated, fails: the fuzzy item "Hello" with the stored translation
    "Hi" is shown with the fuzzy toggle on and no suppression; a newline is
    then written at the end of its text, as a user edit.  The edit enters
    [UpdateFromTextCtrl], which normalises the text back to "Hi" and returns
    early: the item is as before and still fuzzy. *)
Lemma edit_undone_by_normalisation_keeps_fuzzy :
  m_dontAutoclearFuzzyStatus
    (bound_area (sample_item "Hello" ["Hi"] true true) true "Hi" []) = false
  /\ option_map (fun ea' => (m_associatedList ea', trace ea'))
       (SetPlainTextUserWritten TextTrans hi_nl
          (bound_area (sample_item "Hello" ["Hi"] true true) true "Hi" []))
     = Some (Some (sample_item "Hello" ["Hi"] true true),
             [EvSetPlainTextUserWritten TextTrans hi_nl; EvUpdateFromTextCtrl])
  /\ Item.IsFuzzy (sample_item "Hello" ["Hi"] true true) = true.
Proof. repeat split. Qed.

(** C3 (amended): for a bound item with the fuzzy flag set, on a pull that
    finds the fuzzy toggle still at the fuzzy state of the item and the
    normalised slot texts different from the stored translations (an edit
    of the translation text that the normalisation does not undo), the
    fuzzy flag of the item after the pull is false when
    [m_dontAutoclearFuzzyStatus] is false, and stays true when it is true. *)
Theorem UpdateFromTextCtrl_autoclears_fuzzy (ea : EditingArea)
    (item : CatalogItem) (texts : list wxStr) :
  m_associatedList ea = Some item ->
  EnteredTexts item ea = Some texts ->
  Item.IsFuzzy item = true ->
  m_associatedToolbar ea = Item.IsFuzzy item ->
  texts <> StoredTexts item ->
  exists ea' item',
    UpdateFromTextCtrl ea = Some ea'
    /\ m_associatedList ea' = Some item'
    /\ (m_dontAutoclearFuzzyStatus ea = false -> Item.IsFuzzy item' = false)
    /\ (m_dontAutoclearFuzzyStatus ea = true -> Item.IsFuzzy item' = true).
Proof.
  intros Hb Ht Hf Htb Hne.
  apply array_eqb_neq in Hne.
  destruct (UpdateFromTextCtrl_commit ea item texts Hb Ht) as (ea' & Hp & Hi & _).
  { unfold pull_is_noop. rewrite Hne. apply andb_false_r. }
  exists ea'. eexists. split; [exact Hp|]. split; [exact Hi|].
  rewrite Hne. unfold Item.IsFuzzy, CommittedItem in *. simpl.
  destruct (StoreTexts_flags texts item) as (-> & _).
  rewrite Htb, Hf. simpl.
  split; intros ->; reflexivity.
Qed.

(** The fuzzy item "Hello" with translation "Hi", after "Hi!" was typed. *)
Lemma UpdateFromTextCtrl_autoclears_fuzzy_witness :
  exists ea' item',
    UpdateFromTextCtrl
      (bound_area (sample_item "Hello" ["Hi"] true true) true "Hi!" []) = Some ea'
    /\ m_associatedList ea' = Some item'
    /\ (false = false -> Item.IsFuzzy item' = false)
    /\ (false = true -> Item.IsFuzzy item' = true).
Proof.
  apply (UpdateFromTextCtrl_autoclears_fuzzy
           (bound_area (sample_item "Hello" ["Hi"] true true) true "Hi!" [])
           (sample_item "Hello" ["Hi"] true true) ["Hi!"]);
    [reflexivity | reflexivity | reflexivity | reflexivity | discriminate].
Defined.

(** After a pull that passes the test of line 703 the translated flag is
    the conjunction of the non-emptiness of the normalised texts. *)
Lemma UpdateFromTextCtrl_commit_translated (ea : EditingArea) (item : CatalogItem)
    (texts : list wxStr) :
  m_associatedList ea = Some item ->
  EnteredTexts item ea = Some texts ->
  pull_is_noop item texts ea = false ->
  exists ea' item',
    UpdateFromTextCtrl ea = Some ea'
    /\ m_associatedList ea' = Some item'
    /\ Item.IsTranslated item' = all_nonempty texts.
Proof.
  intros Hb Ht Hn.
  destruct (UpdateFromTextCtrl_commit ea item texts Hb Ht Hn) as (ea' & Hp & Hi & _).
  exists ea'. eexists. split; [exact Hp|]. split; [exact Hi|].
  unfold Item.IsTranslated, CommittedItem. simpl.
  assert (E : m_isTranslated
                (if wxString.array_eqb texts (StoredTexts item) then item
                 else StoreTexts texts item) = m_isTranslated item).
  { destruct (wxString.array_eqb _ _); [reflexivity|].
    apply (StoreTexts_flags texts item). }
  rewrite E.
  destruct (m_isTranslated item), (all_nonempty texts); reflexivity.
Qed.

(** C4: after every pull that passes the test of line 703 (the fuzzy toggle
    differs from the fuzzy flag of the item, or the normalised slot texts
    differ from the stored translations), the translated flag of the item
    equals the conjunction, over the slots read, of "the normalised text is
    non-empty": all plural controls for an item with plural, the one
    control otherwise.  In particular every item with plural whose three
    plural controls hold "a", the empty text and "c" ends with the
    translated flag false. *)
Theorem UpdateFromTextCtrl_translated :
  (forall (ea : EditingArea) (item : CatalogItem) (texts : list wxStr),
     m_associatedList ea = Some item ->
     EnteredTexts item ea = Some texts ->
     pull_is_noop item texts ea = false ->
     exists ea' item',
       UpdateFromTextCtrl ea = Some ea'
       /\ m_associatedList ea' = Some item'
       /\ Item.IsTranslated item' = all_nonempty texts)
  /\ (forall (ea : EditingArea) (item : CatalogItem) (texts : list wxStr),
        m_associatedList ea = Some item ->
        Item.HasPlural item = true ->
        map plainText (m_textTransPlural ea) = ["a"; ""; "c"] ->
        EnteredTexts item ea = Some texts ->
        pull_is_noop item texts ea = false ->
        exists ea' item',
          UpdateFromTextCtrl ea = Some ea'
          /\ m_associatedList ea' = Some item'
          /\ Item.IsTranslated item' = false).
Proof.
  split; [exact UpdateFromTextCtrl_commit_translated|].
  intros ea item texts Hb Hp Hc Ht Hn.
  destruct (UpdateFromTextCtrl_commit_translated ea item texts Hb Ht Hn)
    as (ea' & item' & H1 & H2 & H3).
  exists ea', item'. split; [exact H1|]. split; [exact H2|].
  rewrite H3. unfold EnteredTexts in Ht. rewrite Hp in Ht. injection Ht as <-.
  destruct (m_textTransPlural ea) as [|c1 [|c2 [|c3 [|]]]]; try discriminate.
  injection Hc as _ E2 _. simpl. rewrite E2. simpl. apply andb_false_r.
Qed.

(** A three-form plural item whose slots hold "a", the empty text and "c"
    ends untranslated, although it was marked translated before. *)
Lemma UpdateFromTextCtrl_translated_witness :
  exists ea' item',
    UpdateFromTextCtrl
      (bound_area
         (mkCatalogItem "file" true "files" ["a"; "b"; "c"] false true false false)
         false "" ["a"; ""; "c"]) = Some ea'
    /\ m_associatedList ea' = Some item'
    /\ Item.IsTranslated item' = false.
Proof.
  apply (proj2 UpdateFromTextCtrl_translated
           (bound_area
              (mkCatalogItem "file" true "files" ["a"; "b"; "c"]
                 false true false false)
              false "" ["a"; ""; "c"])
           (mkCatalogItem "file" true "files" ["a"; "b"; "c"]
              false true false false)
           ["a"; ""; "c"]); reflexivity.
Defined.

(** ** Scoped suppression and push *)

(** Unfolds the field updates of the editing area and the field reads on
    the resulting record. *)
Ltac unfold_area :=
  cbv [EA.emit EA.emits EA.set_associatedList EA.set_associatedToolbar
       EA.set_dontAutoclearFuzzyStatus EA.set_textOrig EA.set_textOrigPlural
       EA.set_textTrans EA.set_pluralNotebook EA.set_textTransPlural
       EA.set_textTransSingularForm EA.put_ctrl EA.ctrl
       m_associatedList m_associatedToolbar m_dontAutoclearFuzzyStatus
       m_textOrig m_textOrigPlural m_textTrans m_pluralNotebook
       m_textTransPlural m_textTransSingularForm OnUpdatedFromTextCtrl trace].


(** One call of [SetTranslationValue] on an existing control: the control
    ends with the new text and an enabled handler, the trace gains the scoped
    write, and [UpdateFromTextCtrl] is not entered. *)
Lemma SetTranslationValue_spec (c : Ctrl) (value : wxStr) (flags : Z)
    (ea : EditingArea) (txt : TranslationTextCtrl) :
  EA.ctrl c ea = Some txt ->
  SetTranslationValue c value flags ea
  = Some (EA.emits (scoped_write flags c value)
            (EA.put_ctrl c (mkTextCtrl value true) ea)).
Proof.
  intros Hc.
  unfold SetTranslationValue, SetEvtHandlerEnabled, scoped_write, write_event.
  rewrite Hc. simpl.
  destruct c as [|i]; destruct ea; simpl in Hc.
  - destruct (negb (Z.land flags UndoableEdit =? 0));
      cbv [SetPlainText SetPlainTextUserWritten ProcessTextEvent EA.ctrl
           EA.put_ctrl EA.emit EA.emits EA.set_textTrans m_textTrans
           m_associatedList m_associatedToolbar m_dontAutoclearFuzzyStatus
           m_textOrig m_textOrigPlural m_pluralNotebook m_textTransPlural
           m_textTransSingularForm OnUpdatedFromTextCtrl trace
           plainText evtHandlerEnabled mbind option_bind];
      rewrite <- ?app_assoc; reflexivity.
  - assert (Hi : (i < length m_textTransPlural0)%nat)
      by (eapply lookup_lt_Some; exact Hc).
    destruct (negb (Z.land flags UndoableEdit =? 0));
      cbv [SetPlainText SetPlainTextUserWritten ProcessTextEvent EA.ctrl
           EA.put_ctrl EA.emit EA.emits EA.set_textTransPlural m_textTrans
           m_associatedList m_associatedToolbar m_dontAutoclearFuzzyStatus
           m_textOrig m_textOrigPlural m_pluralNotebook m_textTransPlural
           m_textTransSingularForm OnUpdatedFromTextCtrl trace];
      rewrite list_lookup_insert_eq by exact Hi;
      cbv [mbind option_bind plainText evtHandlerEnabled];
      rewrite list_lookup_insert_eq by (rewrite ?length_insert; exact Hi);
      cbv [mbind option_bind plainText evtHandlerEnabled];
      rewrite list_lookup_insert_eq by (rewrite ?length_insert; exact Hi);
      cbv [mbind option_bind plainText evtHandlerEnabled];
      rewrite !list_insert_insert_eq, <- ?app_assoc; reflexivity.
Qed.

Lemma written_length (f : nat -> wxStr) (from count : nat)
    (ctrls : list TranslationTextCtrl) :
  length (written f from count ctrls) = length ctrls.
Proof.
  revert from ctrls. induction count as [|count IH]; intros from ctrls; simpl.
  - reflexivity.
  - rewrite IH. apply length_insert.
Qed.

Lemma written_lookup (f : nat -> wxStr) (from count : nat)
    (ctrls : list TranslationTextCtrl) (k : nat) :
  (k < length ctrls)%nat ->
  written f from count ctrls !! k
  = if decide (from <= k < from + count)%nat
    then Some (mkTextCtrl (f k) true) else ctrls !! k.
Proof.
  revert from ctrls. induction count as [|count IH]; intros from ctrls Hk; simpl.
  - destruct (decide _); [lia|reflexivity].
  - rewrite IH by (rewrite length_insert; exact Hk).
    destruct (decide (S from <= k < S from + count)%nat) as [H|H].
    + destruct (decide _); [reflexivity|lia].
    + destruct (decide (from = k)) as [->|Hne].
      * rewrite list_lookup_insert_eq by exact Hk.
        destruct (decide _); [reflexivity|lia].
      * rewrite list_lookup_insert_ne by exact Hne.
        destruct (decide _); [lia|reflexivity].
Qed.

(** A counted loop of [SetTranslationValue] over plural controls that
    exist. *)
Lemma for_loop_SetTranslationValue (f : nat -> wxStr) (flags : Z)
    (count from : nat) (ea : EditingArea) :
  (from + count <= length (m_textTransPlural ea))%nat ->
  for_loop from count
    (fun j => SetTranslationValue (TextTransPlural j) (f j) flags) ea
  = Some (EA.emits
            (flat_map (fun j => scoped_write flags (TextTransPlural j) (f j))
               (seq from count))
            (EA.set_textTransPlural
               (written f from count (m_textTransPlural ea)) ea)).
Proof.
  revert from ea. induction count as [|count IH]; intros from ea Hlen; simpl.
  - destruct ea; unfold_area. rewrite app_nil_r. reflexivity.
  - destruct (lookup_lt_is_Some_2 (m_textTransPlural ea) from) as [txt Ht];
      [lia|].
    rewrite (SetTranslationValue_spec (TextTransPlural from) _ _ _ txt Ht). simpl.
    rewrite IH.
    + destruct ea; unfold_area. rewrite <- ?app_assoc. reflexivity.
    + destruct ea; revert Hlen; unfold_area; intros Hlen.
      rewrite length_insert. lia.
Qed.

(** The plural controls after the two loops of lines 610-617: control [k]
    holds translation [k], which is the empty text past the stored ones. *)
Lemma written_plural (item : CatalogItem) (ctrls : list TranslationTextCtrl) :
  written (Item.GetTranslation item) 0
    (Nat.min (length ctrls) (Item.GetNumberOfTranslations item))
    (written (fun _ => "") 0 (length ctrls) ctrls)
  = map (fun k => mkTextCtrl (Item.GetTranslation item k) true)
      (seq 0 (length ctrls)).
Proof.
  apply list_eq. intros k.
  change (map ?f ?l) with (f <$> l). rewrite list_lookup_fmap.
  destruct (decide (k < length ctrls)%nat) as [Hk|Hk].
  - rewrite lookup_seq_lt by exact Hk. simpl.
    rewrite written_lookup by (rewrite written_length; exact Hk).
    destruct (decide _) as [H|H]; [reflexivity|].
    rewrite written_lookup by exact Hk.
    destruct (decide _) as [_|H']; [|lia].
    unfold Item.GetTranslation, Item.GetNumberOfTranslations in *.
    rewrite (lookup_ge_None_2 (m_translations item) k) by lia. reflexivity.
  - rewrite lookup_seq_ge by lia. simpl.
    apply lookup_ge_None_2. rewrite !written_length. lia.
Qed.

Lemma GetTranslation_seq (item : CatalogItem) (n : nat) :
  map (Item.GetTranslation item) (seq 0 n)
  = take n (m_translations item)
    ++ replicate (n - length (m_translations item)) "".
Proof.
  apply list_eq. intros k.
  change (map ?f ?l) with (f <$> l). rewrite list_lookup_fmap.
  destruct (decide (k < n)%nat) as [Hk|Hk].
  - rewrite lookup_seq_lt by exact Hk. simpl. unfold Item.GetTranslation.
    destruct (decide (k < length (m_translations item))%nat) as [Hl|Hl].
    + rewrite lookup_app_l by (rewrite length_take; lia).
      rewrite lookup_take_lt by exact Hk.
      destruct (lookup_lt_is_Some_2 _ _ Hl) as [x ->]. reflexivity.
    + rewrite lookup_app_r by (rewrite length_take; lia).
      rewrite length_take, lookup_replicate_2 by lia.
      rewrite (lookup_ge_None_2 (m_translations item) k) by lia. reflexivity.
  - rewrite lookup_seq_ge by lia. simpl. symmetry.
    apply lookup_ge_None_2. rewrite length_app, length_take, length_replicate. lia.
Qed.

(** Push of an item with plural, in closed form. *)
Lemma UpdateToTextCtrl_plural (item : CatalogItem) (flags : Z) (ea : EditingArea) :
  Item.HasPlural item = true ->
  UpdateToTextCtrl item flags ea
  = Some (mkEditingArea (m_associatedList ea) (m_associatedToolbar ea) false
            (Item.GetString item) (Item.GetPluralString item)
            (m_textTrans ea) (m_pluralNotebook ea)
            (map (fun k => mkTextCtrl (Item.GetTranslation item k) true)
               (seq 0 (length (m_textTransPlural ea))))
            (m_textTransSingularForm ea) (OnUpdatedFromTextCtrl ea)
            (trace ea
             ++ plural_push_events item flags (length (m_textTransPlural ea)))).
Proof.
  intros Hp. unfold UpdateToTextCtrl. rewrite Hp.
  rewrite for_loop_SetTranslationValue by (destruct ea; unfold_area; lia).
  cbv [mbind option_bind].
  rewrite for_loop_SetTranslationValue
    by (destruct ea; unfold_area; rewrite written_length; lia).
  cbv [mbind option_bind]. f_equal.
  rewrite <- written_plural. unfold plural_push_events.
  destruct ea; unfold_area. rewrite <- !app_assoc. reflexivity.
Qed.

(** Push of an item without plural, in closed form. *)
Lemma UpdateToTextCtrl_singular (item : CatalogItem) (flags : Z) (ea : EditingArea) :
  Item.HasPlural item = false ->
  UpdateToTextCtrl item flags ea
  = Some (mkEditingArea (m_associatedList ea) (m_associatedToolbar ea) false
            (Item.GetString item) (m_textOrigPlural ea)
            (match m_textTrans ea with
             | Some _ => Some (mkTextCtrl (Item.GetTranslation item 0) true)
             | None => None
             end)
            (m_pluralNotebook ea) (m_textTransPlural ea)
            (m_textTransSingularForm ea) (OnUpdatedFromTextCtrl ea)
            (trace ea
             ++ match m_textTrans ea with
                | Some _ => scoped_write flags TextTrans (Item.GetTranslation item 0)
                | None => []
                end)).
Proof.
  intros Hp. unfold UpdateToTextCtrl. rewrite Hp.
  destruct ea as [a b c d e [txt|] g h i j k].
  - unfold EA.set_textOrig at 1. cbv beta iota delta [m_textTrans].
    rewrite (SetTranslationValue_spec TextTrans _ _ _ txt) by reflexivity.
    reflexivity.
  - cbv [mbind option_bind]. unfold_area. rewrite app_nil_r. reflexivity.
Qed.

Lemma ScopedWrites_app (evs evs' : list Event) :
  ScopedWrites evs -> ScopedWrites evs' -> ScopedWrites (evs ++ evs').
Proof.
  intros H H'. induction H; simpl; [exact H'| |]; constructor; exact IHScopedWrites.
Qed.

Lemma ScopedWrites_scoped_write (flags : Z) (c : Ctrl) (value : wxStr) :
  ScopedWrites (scoped_write flags c value).
Proof.
  unfold scoped_write, write_event.
  destruct (negb (Z.land flags UndoableEdit =? 0)); repeat constructor.
Qed.

Lemma ScopedWrites_flat_map (flags : Z) (f : nat -> wxStr) (l : list nat) :
  ScopedWrites (flat_map (fun j => scoped_write flags (TextTransPlural j) (f j)) l).
Proof.
  induction l as [|j l IH]; simpl; [constructor|].
  change (ScopedWrites
            (scoped_write flags (TextTransPlural j) (f j)
             ++ flat_map (fun j => scoped_write flags (TextTransPlural j) (f j)) l)).
  apply ScopedWrites_app; [apply ScopedWrites_scoped_write|exact IH].
Qed.

(** A trace of scoped writes has no entry into [UpdateFromTextCtrl], nor
    any of the calls a pull makes. *)
Lemma ScopedWrites_no_pull (evs : list Event) :
  ScopedWrites evs ->
  Forall (fun e => match e with
                   | EvSetEvtHandlerEnabled _ _ | EvSetPlainText _ _
                   | EvSetPlainTextUserWritten _ _ => True
                   | _ => False
                   end) evs.
Proof. induction 1; repeat constructor; assumption. Qed.

(** A push completes; what it adds to the trace is a sequence of scoped
    writes, and it touches neither the bound item nor the fuzzy toggle. *)
Lemma UpdateToTextCtrl_completes (item : CatalogItem) (flags : Z)
    (ea : EditingArea) :
  exists ea' evs,
    UpdateToTextCtrl item flags ea = Some ea'
    /\ trace ea' = trace ea ++ evs
    /\ ScopedWrites evs
    /\ m_associatedList ea' = m_associatedList ea
    /\ m_associatedToolbar ea' = m_associatedToolbar ea.
Proof.
  destruct (Item.HasPlural item) eqn:Hp.
  - rewrite (UpdateToTextCtrl_plural _ _ _ Hp).
    eexists. exists (plural_push_events item flags (length (m_textTransPlural ea))).
    repeat split; try reflexivity.
    apply ScopedWrites_app; apply ScopedWrites_flat_map.
  - rewrite (UpdateToTextCtrl_singular _ _ _ Hp).
    eexists. eexists. split; [reflexivity|]. split; [reflexivity|].
    repeat split.
    destruct (m_textTrans ea); [apply ScopedWrites_scoped_write|constructor].
Qed.

(** C1: a push, for every item, every write mode and every state of the
    editing area, completes, and what it adds to the trace is a sequence of
    scoped writes: each write of a translation text into a control comes
    right after the event handler of that control was disabled and right
    before it is enabled again.  The trace has no entry into
    [UpdateFromTextCtrl], so the item bound in the list and the fuzzy toggle
    are as before, and every control written to ends with its handler
    enabled, whatever its state was before. *)
Theorem UpdateToTextCtrl_never_pulls (item : CatalogItem) (flags : Z)
    (ea : EditingArea) :
  exists ea' evs,
    UpdateToTextCtrl item flags ea = Some ea'
    /\ trace ea' = trace ea ++ evs
    /\ ScopedWrites evs
    /\ ~ In EvUpdateFromTextCtrl evs
    /\ m_associatedList ea' = m_associatedList ea
    /\ m_associatedToolbar ea' = m_associatedToolbar ea
    /\ (if Item.HasPlural item
        then Forall (fun c => evtHandlerEnabled c = true) (m_textTransPlural ea')
        else match m_textTrans ea' with
             | Some txt => evtHandlerEnabled txt = true
             | None => True
             end).
Proof.
  assert (Hno : forall evs, ScopedWrites evs -> ~ In EvUpdateFromTextCtrl evs).
  { intros evs H Hin. apply ScopedWrites_no_pull in H.
    rewrite Forall_forall in H.
    exact (H _ (proj2 (list_elem_of_In _ _) Hin)). }
  destruct (Item.HasPlural item) eqn:Hp.
  - rewrite (UpdateToTextCtrl_plural _ _ _ Hp).
    eexists. exists (plural_push_events item flags (length (m_textTransPlural ea))).
    assert (Hs : ScopedWrites
                   (plural_push_events item flags (length (m_textTransPlural ea)))).
    { apply ScopedWrites_app; apply ScopedWrites_flat_map. }
    repeat split; try reflexivity; auto.
    simpl. apply Forall_forall. intros c Hc. apply list_elem_of_In in Hc.
    apply in_map_iff in Hc as (k & <- & _). reflexivity.
  - rewrite (UpdateToTextCtrl_singular _ _ _ Hp).
    eexists. eexists. split; [reflexivity|]. split; [reflexivity|].
    assert (Hs : ScopedWrites
                   match m_textTrans ea with
                   | Some _ => scoped_write flags TextTrans (Item.GetTranslation item 0)
                   | None => []
                   end).
    { destruct (m_textTrans ea); [apply ScopedWrites_scoped_write|constructor]. }
    repeat split; auto.
    simpl. destruct (m_textTrans ea); reflexivity || exact I.
Qed.

(** C7: the push of an item with plural, on an editing area with [n] plural
    controls, first writes the empty text into each of the [n] controls and
    then translation [i] into control [i] for every [i] below the smaller of
    [n] and the number of stored translations.  Afterwards the controls hold
    the first [n] stored translations followed by empty texts up to [n]:
    controls past the stored translations are empty, translations past the
    controls are written nowhere (the number of plural controls is still [n]
    and [m_textTrans] is untouched), and nothing of the texts shown before
    is left. *)
Theorem UpdateToTextCtrl_plural_slots (item : CatalogItem) (flags : Z)
    (ea : EditingArea) :
  Item.HasPlural item = true ->
  let n := length (m_textTransPlural ea) in
  let translations := Item.GetTranslations item in
  exists ea',
    UpdateToTextCtrl item flags ea = Some ea'
    /\ trace ea'
       = trace ea
         ++ flat_map (fun j => scoped_write flags (TextTransPlural j) "") (seq 0 n)
         ++ flat_map
              (fun i => scoped_write flags (TextTransPlural i)
                          (Item.GetTranslation item i))
              (seq 0 (Nat.min n (length translations)))
    /\ map plainText (m_textTransPlural ea')
       = take n translations ++ replicate (n - length translations) ""
    /\ length (m_textTransPlural ea') = n
    /\ m_textTrans ea' = m_textTrans ea.
Proof.
  intros Hp n translations. rewrite (UpdateToTextCtrl_plural _ _ _ Hp).
  eexists. split; [reflexivity|]. simpl.
  split; [reflexivity|].
  split; [|split; [|reflexivity]].
  - rewrite map_map. simpl. apply GetTranslation_seq.
  - rewrite length_map, length_seq. reflexivity.
Qed.

(** Three controls with old texts and an item with one stored translation;
    two controls and an item with three stored translations. *)
Lemma UpdateToTextCtrl_plural_slots_witness :
  (exists ea',
     UpdateToTextCtrl (sample_plural_item ["x"]) 0
       (bound_area (sample_plural_item ["x"]) false "" ["old1"; "old2"; "old3"])
     = Some ea'
     /\ map plainText (m_textTransPlural ea') = ["x"; ""; ""])
  /\ (exists ea',
        UpdateToTextCtrl (sample_plural_item ["a"; "b"; "c"]) 1
          (bound_area (sample_plural_item ["a"; "b"; "c"]) false "" ["old1"; "old2"])
        = Some ea'
        /\ map plainText (m_textTransPlural ea') = ["a"; "b"]).
Proof.
  split.
  - destruct (UpdateToTextCtrl_plural_slots (sample_plural_item ["x"]) 0
                (bound_area (sample_plural_item ["x"]) false ""
                   ["old1"; "old2"; "old3"]) eq_refl)
      as (ea' & H & _ & Ht & _).
    exists ea'. split; [exact H|exact Ht].
  - destruct (UpdateToTextCtrl_plural_slots (sample_plural_item ["a"; "b"; "c"]) 1
                (bound_area (sample_plural_item ["a"; "b"; "c"]) false ""
                   ["old1"; "old2"]) eq_refl)
      as (ea' & H & _ & Ht & _).
    exists ea'. split; [exact H|exact Ht].
Defined.

(** ** Push followed by pull *)

(** After every pull on a bound item whose slots can be read, the stored
    texts of the item are the normalised texts of the slots. *)
Lemma UpdateFromTextCtrl_stores (ea : EditingArea) (item : CatalogItem)
    (texts : list wxStr) :
  m_associatedList ea = Some item ->
  EnteredTexts item ea = Some texts ->
  exists ea' item',
    UpdateFromTextCtrl ea = Some ea'
    /\ m_associatedList ea' = Some item'
    /\ StoredTexts item' = texts
    /\ (pull_is_noop item texts ea = true ->
        ea' = EA.emit EvUpdateFromTextCtrl ea /\ item' = item).
Proof.
  intros Hb Ht. rewrite (UpdateFromTextCtrl_spec _ _ _ Hb Ht).
  destruct (pull_is_noop item texts ea) eqn:Hn.
  - exists (EA.emit EvUpdateFromTextCtrl ea), item.
    split; [reflexivity|]. split; [destruct ea; exact Hb|].
    split; [|auto].
    unfold pull_is_noop in Hn. apply andb_true_iff in Hn as [_ Hs].
    symmetry. apply array_eqb_eq. exact Hs.
  - eexists. eexists. split; [reflexivity|].
    split; [apply CommitUpdate_item|]. split; [|discriminate].
    destruct (wxString.array_eqb texts (StoredTexts item)) eqn:E.
    + apply array_eqb_eq in E. rewrite E. reflexivity.
    + transitivity (StoredTexts (StoreTexts texts item));
        [reflexivity|apply (StoredTexts_StoreTexts _ _ _ Ht)].
Qed.

(** C6, as stated, fails: the item "Hello\n" with the stored translation
    "Hi" is fuzzy and not modified; after a push and an immediate pull its
    translation is "Hi\n", its fuzzy flag is cleared and it is modified. *)
Lemma push_then_pull_flips_flags :
  m_associatedList unnormalised_area
  = Some (mkCatalogItem hello_nl false "" ["Hi"] true true false false)
  /\ option_map m_associatedList
       (push_then_pull unnormalised_item 0 unnormalised_area)
     = Some (Some (mkCatalogItem hello_nl false "" [hi_nl] false true true false)).
Proof. split; reflexivity. Qed.

(** C6 (amended): let the pushed item be the one bound in the list and let
    the controls fit it.  A push followed at once by a pull then leaves, as
    the stored texts of the item, the normalised stored texts.  When moreover
    the fuzzy toggle equals the fuzzy flag of the item and the stored texts
    are their own normalisation, the item is unchanged after the pull
    (translations and all flags), the fuzzy toggle is unchanged, and the
    trace gains only the scoped writes of the push and the entry into
    [UpdateFromTextCtrl]. *)
Theorem push_then_pull_roundtrip (item : CatalogItem) (flags : Z)
    (ea : EditingArea) :
  m_associatedList ea = Some item ->
  slots_fit item ea = true ->
  exists ea' item',
    push_then_pull item flags ea = Some ea'
    /\ m_associatedList ea' = Some item'
    /\ StoredTexts item'
       = map (PreprocessEnteredTextForItem item) (StoredTexts item)
    /\ (m_associatedToolbar ea = Item.IsFuzzy item ->
        map (PreprocessEnteredTextForItem item) (StoredTexts item)
        = StoredTexts item ->
        item' = item
        /\ m_associatedToolbar ea' = m_associatedToolbar ea
        /\ exists evs, ScopedWrites evs
                       /\ trace ea' = trace ea ++ evs ++ [EvUpdateFromTextCtrl]).
Proof.
  intros Hb Hfit.
  destruct (UpdateToTextCtrl_completes item flags ea)
    as (ea1 & evs & Hpush & Htr & Hsw & Hl & Htb).
  assert (Ht : EnteredTexts item ea1
               = Some (map (PreprocessEnteredTextForItem item) (StoredTexts item))).
  { unfold slots_fit, EnteredTexts, StoredTexts in *.
    destruct (Item.HasPlural item) eqn:Hp.
    - rewrite (UpdateToTextCtrl_plural _ _ _ Hp) in Hpush. injection Hpush as <-.
      simpl. apply Nat.eqb_eq in Hfit. rewrite Hfit.
      rewrite map_map. simpl.
      rewrite <- (map_map (Item.GetTranslation item)
                    (PreprocessEnteredTextForItem item)).
      rewrite GetTranslation_seq.
      unfold Item.GetNumberOfTranslations, Item.GetTranslations.
      rewrite Nat.sub_diag, firstn_all. simpl. rewrite app_nil_r. reflexivity.
    - rewrite (UpdateToTextCtrl_singular _ _ _ Hp) in Hpush. injection Hpush as <-.
      simpl. destruct (m_textTrans ea); [reflexivity|discriminate]. }
  rewrite <- Hl in Hb.
  destruct (UpdateFromTextCtrl_stores ea1 item _ Hb Ht)
    as (ea' & item' & Hpull & Hb' & Hst & Hnoop).
  exists ea', item'. unfold push_then_pull. rewrite Hpush. simpl.
  split; [exact Hpull|]. split; [exact Hb'|]. split; [exact Hst|].
  intros Hf Hn.
  destruct Hnoop as [-> ->].
  { unfold pull_is_noop. rewrite Htb, Hf, Hn, array_eqb_refl, Bool.eqb_reflx.
    reflexivity. }
  split; [reflexivity|]. split; [destruct ea1; exact Htb|].
  exists evs. split; [exact Hsw|].
  destruct ea1; simpl in *. rewrite Htr, <- app_assoc. reflexivity.
Qed.

Lemma push_then_pull_roundtrip_witness :
  exists ea',
    push_then_pull (sample_item "Hello" ["Hi"] true true) 0
      (bound_area (sample_item "Hello" ["Hi"] true true) true "stale" [])
    = Some ea'
    /\ m_associatedList ea' = Some (sample_item "Hello" ["Hi"] true true).
Proof.
  destruct (push_then_pull_roundtrip (sample_item "Hello" ["Hi"] true true) 0
              (bound_area (sample_item "Hello" ["Hi"] true true) true "stale" [])
              eq_refl eq_refl)
    as (ea' & item' & H1 & H2 & _ & H4).
  destruct (H4 eq_refl eq_refl) as [E _].
  exists ea'. split; [exact H1|]. rewrite H2, E. reflexivity.
Defined.

(** ** Plural form labels *)

(** The loop of lines 427-505 adds one control and one page per form. *)
Lemma AddPluralForm_fold (calc : option (Z -> Z)) (formsCount : Z)
    (forms : list nat) (ea : EditingArea) :
  m_pluralNotebook (fold_left (AddPluralForm calc formsCount) forms ea)
  = option_map (fun pages => pages ++ map (form_label calc formsCount) forms)
      (m_pluralNotebook ea)
  /\ m_textTransPlural (fold_left (AddPluralForm calc formsCount) forms ea)
     = m_textTransPlural ea ++ replicate (length forms) (mkTextCtrl "" true).
Proof.
  revert ea. induction forms as [|form forms IH]; intros ea; simpl.
  - rewrite app_nil_r. destruct (m_pluralNotebook ea); simpl;
      rewrite ?app_nil_r; auto.
  - destruct (IH (AddPluralForm calc formsCount ea form)) as [-> ->].
    unfold AddPluralForm, form_label.
    destruct (_ && _); destruct ea as [a b c d e f [pages|] h i j k];
      unfold_area; simpl; rewrite <- ?app_assoc; auto.
Qed.

(** The pages and controls after a rebuild on an area with a notebook. *)
Lemma RecreatePluralTextCtrls_pages (catalog : Catalog) (ea : EditingArea)
    (pages : list wxStr) :
  m_pluralNotebook ea = Some pages ->
  m_pluralNotebook (RecreatePluralTextCtrls catalog ea)
  = Some (map (form_label (PluralFormsCalculator_make catalog)
                 (GetPluralFormsCount catalog))
            (seq 0 (Z.to_nat (GetPluralFormsCount catalog))))
  /\ m_textTransPlural (RecreatePluralTextCtrls catalog ea)
     = replicate (Z.to_nat (GetPluralFormsCount catalog)) (mkTextCtrl "" true).
Proof.
  intros Hn. unfold RecreatePluralTextCtrls. rewrite Hn.
  match goal with
  | |- context [fold_left ?f ?l ?e] =>
      destruct (AddPluralForm_fold (PluralFormsCalculator_make catalog)
                  (GetPluralFormsCount catalog) l e) as [Hp Hc];
      set (ea1 := fold_left f l e) in *
  end.
  assert (Hp' : m_pluralNotebook ea1
                = Some (map (form_label (PluralFormsCalculator_make catalog)
                               (GetPluralFormsCount catalog))
                          (seq 0 (Z.to_nat (GetPluralFormsCount catalog)))))
    by (rewrite Hp; destruct ea; reflexivity).
  assert (Hc' : m_textTransPlural ea1
                = replicate (Z.to_nat (GetPluralFormsCount catalog))
                    (mkTextCtrl "" true))
    by (rewrite Hc, length_seq; destruct ea; reflexivity).
  clearbody ea1. clear Hp Hc.
  destruct ea1 as [a b c d e f g h [i|] j k]; simpl in *;
    [|destruct h]; split; assumption.
Qed.

(** C8: for two forms and the evaluator that maps 1 to form 0 and every
    other number to form 1, the scan of 0..999 finds for form 0 the single
    example 1 and for form 1 five examples, the first of which is 0, so that
    it stops there with the ellipsis; the labels are "Singular" for form 0
    and "Plural" for form 1, and these are the pages of the notebook after
    the rebuild. *)
Theorem RecreatePluralTextCtrls_english_like :
  FindExamples (Some english_like) 2 0 = mkExamples "1" 1 1
  /\ form_label (Some english_like) 2 0 = "Singular"
  /\ FindExamples (Some english_like) 2 1 = mkExamples "0, 2, 3, 4…" 0 maxExamplesCnt
  /\ form_label (Some english_like) 2 1 = "Plural"
  /\ forall (ea : EditingArea) (pages : list wxStr),
       m_pluralNotebook ea = Some pages ->
       m_pluralNotebook
         (RecreatePluralTextCtrls (mkCatalog (Some english_like) 2) ea)
       = Some ["Singular"; "Plural"].
Proof.
  split; [vm_compute; reflexivity|].
  split; [vm_compute; reflexivity|].
  split; [vm_compute; reflexivity|].
  split; [vm_compute; reflexivity|].
  intros ea pages Hn.
  destruct (RecreatePluralTextCtrls_pages (mkCatalog (Some english_like) 2)
              ea pages Hn) as [-> _].
  vm_compute. reflexivity.
Qed.

Lemma RecreatePluralTextCtrls_english_like_witness :
  m_pluralNotebook
    (RecreatePluralTextCtrls (mkCatalog (Some english_like) 2) (edit_area []))
  = Some ["Singular"; "Plural"].
Proof.
  exact (proj2 (proj2 (proj2 (proj2 RecreatePluralTextCtrls_english_like)))
           (edit_area []) [] eq_refl).
Defined.

(** Without an evaluator the scan is skipped and no example is found. *)
Lemma form_label_no_calc (formsCount : Z) (form : nat) :
  1 < formsCount ->
  form_label None formsCount form
  = String.append "Form " (wxString.of_int (Z.of_nat form)).
Proof.
  intros H. unfold form_label, FindExamples, Describe. simpl.
  destruct (formsCount =? 1) eqn:E; [apply Z.eqb_eq in E; lia|]. reflexivity.
Qed.

Lemma form_label_one_form (calc : option (Z -> Z)) (form : nat) :
  form_label calc 1 form = "Everything".
Proof. reflexivity. Qed.

(** C9: on an editing area with a notebook, when the evaluator is absent
    and there is more than one form, the rebuild makes one page and one
    control for each of the [formsCount] forms and labels form [f], counted
    from 0, "Form f"; with a single form the one page is labelled
    "Everything", whatever the evaluator. *)
Theorem RecreatePluralTextCtrls_fallback :
  (forall (formsCount : Z) (ea : EditingArea) (pages : list wxStr),
     1 < formsCount ->
     m_pluralNotebook ea = Some pages ->
     m_pluralNotebook (RecreatePluralTextCtrls (mkCatalog None formsCount) ea)
     = Some (map (fun f => String.append "Form " (wxString.of_int (Z.of_nat f)))
               (seq 0 (Z.to_nat formsCount)))
     /\ length (m_textTransPlural
                  (RecreatePluralTextCtrls (mkCatalog None formsCount) ea))
        = Z.to_nat formsCount)
  /\ (forall (calc : option (Z -> Z)) (ea : EditingArea) (pages : list wxStr),
        m_pluralNotebook ea = Some pages ->
        m_pluralNotebook (RecreatePluralTextCtrls (mkCatalog calc 1) ea)
        = Some ["Everything"]).
Proof.
  split.
  - intros formsCount ea pages Hfc Hn.
    destruct (RecreatePluralTextCtrls_pages (mkCatalog None formsCount) ea pages Hn)
      as [-> ->]. simpl.
    split; [|apply length_replicate].
    f_equal. apply map_ext. intros f. apply form_label_no_calc. exact Hfc.
  - intros calc ea pages Hn.
    destruct (RecreatePluralTextCtrls_pages (mkCatalog calc 1) ea pages Hn)
      as [-> _]. reflexivity.
Qed.

(** Three forms without an evaluator, and one form with one. *)
Lemma RecreatePluralTextCtrls_fallback_witness :
  m_pluralNotebook (RecreatePluralTextCtrls (mkCatalog None 3) (edit_area []))
  = Some ["Form 0"; "Form 1"; "Form 2"]
  /\ m_pluralNotebook
       (RecreatePluralTextCtrls (mkCatalog (Some english_like) 1) (edit_area []))
     = Some ["Everything"].
Proof.
  split.
  - exact (proj1 (proj1 RecreatePluralTextCtrls_fallback 3 (edit_area []) []
                    eq_refl eq_refl)).
  - exact (proj2 RecreatePluralTextCtrls_fallback (Some english_like)
             (edit_area []) [] eq_refl).
Defined.

(** ** The normalisation is idle on empty texts *)

Lemma EnteredTexts_RawTexts (item : CatalogItem) (ea : EditingArea)
    (raw : list wxStr) :
  RawTexts item ea = Some raw ->
  EnteredTexts item ea = Some (map (PreprocessEnteredTextForItem item) raw).
Proof.
  unfold RawTexts, EnteredTexts. destruct (Item.HasPlural item).
  - intros [= <-]. rewrite map_map. reflexivity.
  - destruct (m_textTrans ea); [|discriminate]. intros [= <-]. reflexivity.
Qed.

(** C10: [PreprocessEnteredTextForItem] changes the entered text only when
    both the entered text and the source text are non-empty: the empty
    entered text is returned empty for every source, also one that ends
    with a newline, and with an empty source every entered text is returned
    as it is.  So after a pull on a bound item every slot that is empty is
    stored as the empty translation, and when the source is empty the slot
    texts are stored as entered. *)
Theorem Preprocess_idle_on_empty :
  (forall item : CatalogItem, PreprocessEnteredTextForItem item "" = "")
  /\ (forall (item : CatalogItem) (t : wxStr),
        Item.GetString item = "" -> PreprocessEnteredTextForItem item t = t)
  /\ (forall (item : CatalogItem) (t : wxStr),
        PreprocessEnteredTextForItem item t <> t ->
        t <> "" /\ Item.GetString item <> "")
  /\ (forall (ea : EditingArea) (item : CatalogItem) (raw : list wxStr),
        m_associatedList ea = Some item ->
        RawTexts item ea = Some raw ->
        exists ea' item',
          UpdateFromTextCtrl ea = Some ea'
          /\ m_associatedList ea' = Some item'
          /\ length (StoredTexts item') = length raw
          /\ (forall i : nat,
                raw !! i = Some "" -> StoredTexts item' !! i = Some "")
          /\ (Item.GetString item = "" -> StoredTexts item' = raw)).
Proof.
  split; [exact Preprocess_empty_entered|].
  split; [exact Preprocess_empty_source|].
  split.
  - intros item t Hne. split.
    + intros ->. apply Hne. apply Preprocess_empty_entered.
    + intros Hs. apply Hne. apply Preprocess_empty_source. exact Hs.
  - intros ea item raw Hb Hr.
    destruct (UpdateFromTextCtrl_stores ea item _ Hb (EnteredTexts_RawTexts _ _ _ Hr))
      as (ea' & item' & Hp & Hb' & Hs & _).
    exists ea', item'. split; [exact Hp|]. split; [exact Hb'|].
    rewrite Hs. split; [apply length_map|]. split.
    + intros i Hi. change (map ?f ?l) with (f <$> l).
      rewrite list_lookup_fmap, Hi. reflexivity.
    + intros Hsrc. rewrite <- (map_id raw) at 2. apply map_ext.
      intros t. apply Preprocess_empty_source. exact Hsrc.
Qed.

(** The source "Hello\n" and an empty slot: the stored translation is the
    empty text, not a lone newline. *)
Lemma Preprocess_idle_on_empty_witness :
  exists ea' item',
    UpdateFromTextCtrl
      (bound_area (sample_item hello_nl ["Hi"] false true) false "" []) = Some ea'
    /\ m_associatedList ea' = Some item'
    /\ StoredTexts item' !! 0%nat = Some "".
Proof.
  destruct (proj2 (proj2 (proj2 Preprocess_idle_on_empty))
              (bound_area (sample_item hello_nl ["Hi"] false true) false "" [])
              (sample_item hello_nl ["Hi"] false true) [""] eq_refl eq_refl)
    as (ea' & item' & H1 & H2 & _ & H4 & _).
  exists ea', item'. split; [exact H1|]. split; [exact H2|].
  apply H4. reflexivity.
Defined.

(** * Further properties *)

(** ** The scan for examples *)

(** Numbers that do not match leave the locals of the scan untouched, so the
    scan is a scan of the matching numbers. *)
Lemma ScanExamples_filter (evaluate : Z -> Z) (form : Z) (count : nat)
    (example : Z) (s : Examples) :
  ScanExamples evaluate form count example s
  = ScanMatches
      (List.filter (fun n => evaluate n =? form) (seqZ example (Z.of_nat count))) s.
Proof.
  revert example s. induction count as [|count IH]; intros example s.
  - reflexivity.
  - rewrite seqZ_cons by lia.
    replace (Z.pred (Z.of_nat (S count))) with (Z.of_nat count) by lia.
    cbn [ScanExamples List.filter].
    destruct (evaluate example =? form); cbn [ScanMatches].
    + rewrite <- !IH. reflexivity.
    + apply IH.
Qed.

(** The scan from its initial locals, in closed form. *)
Lemma ScanMatches_closed (matches : list Z) :
  ScanMatches matches (mkExamples "" (-1) 0)
  = mkExamples (examples_text matches) (hd (-1) matches)
      (Z.of_nat (Nat.min 5 (length matches))).
Proof.
  destruct matches as [|a [|b [|c [|d [|e rest]]]]]; reflexivity.
Qed.

Lemma FindExamples_closed (evaluate : Z -> Z) (formsCount form : Z) :
  1 < formsCount ->
  FindExamples (Some evaluate) formsCount form
  = mkExamples (examples_text (form_examples evaluate form))
      (hd (-1) (form_examples evaluate form))
      (Z.of_nat (Nat.min 5 (length (form_examples evaluate form)))).
Proof.
  intros H. unfold FindExamples.
  destruct (1 <? formsCount) eqn:E; [|apply Z.ltb_ge in E; lia].
  rewrite ScanExamples_filter. apply ScanMatches_closed.
Qed.

Lemma form_examples_In (evaluate : Z -> Z) (form n : Z) :
  In n (form_examples evaluate form) <-> 0 <= n < 1000 /\ evaluate n = form.
Proof.
  unfold form_examples. rewrite filter_In, <- list_elem_of_In, elem_of_seqZ, Z.eqb_eq.
  intuition lia.
Qed.

(** The first number kept by a filter of an ascending range is the least
    number of the range that passes. *)
Lemma filter_seqZ_head (p : Z -> bool) (count : nat) (from a : Z) (rest : list Z) :
  List.filter p (seqZ from (Z.of_nat count)) = a :: rest ->
  from <= a < from + Z.of_nat count /\ p a = true
  /\ forall n, from <= n < a -> p n = false.
Proof.
  revert from. induction count as [|count IH]; intros from.
  - discriminate.
  - rewrite seqZ_cons by lia.
    replace (Z.pred (Z.of_nat (S count))) with (Z.of_nat count) by lia.
    cbn [List.filter]. destruct (p from) eqn:Hp.
    + intros [= <- _]. split; [lia|]. split; [exact Hp|]. intros n Hn. lia.
    + intros H. destruct (IH _ H) as (Hr & Hpa & Hl).
      split; [lia|]. split; [exact Hpa|].
      intros n Hn. destruct (Z.eq_dec n from) as [->|Hne]; [exact Hp|].
      apply Hl. lia.
Qed.

(** X1: with an evaluator and more than one form, the scan of lines 437-453
    leaves in [examples] the first four matching numbers of 0..999 (with the
    ellipsis when there is a fifth), in [examplesCnt] the number of matching
    numbers capped at five, and in [firstExample] the least matching number,
    or -1 when no number matches. *)
Theorem FindExamples_summary (evaluate : Z -> Z) (formsCount form : Z) :
  1 < formsCount ->
  let s := FindExamples (Some evaluate) formsCount form in
  examples s = examples_text (form_examples evaluate form)
  /\ examplesCnt s = Z.of_nat (Nat.min 5 (length (form_examples evaluate form)))
  /\ 0 <= examplesCnt s <= maxExamplesCnt
  /\ (examplesCnt s = 0 <->
      forall n, 0 <= n < 1000 -> evaluate n <> form)
  /\ (examplesCnt s = 0 -> firstExample s = -1)
  /\ (0 < examplesCnt s ->
      0 <= firstExample s < 1000
      /\ evaluate (firstExample s) = form
      /\ forall n, 0 <= n < firstExample s -> evaluate n <> form).
Proof.
  intros Hfc s. subst s. rewrite (FindExamples_closed _ _ _ Hfc).
  cbn [examples examplesCnt firstExample].
  split; [reflexivity|]. split; [reflexivity|].
  split; [unfold maxExamplesCnt; lia|].
  pose proof (form_examples_In evaluate form) as Hin.
  pose proof (filter_seqZ_head (fun n => evaluate n =? form) 1000 0) as Hhd.
  change (List.filter _ (seqZ 0 (Z.of_nat 1000))) with (form_examples evaluate form)
    in Hhd.
  destruct (form_examples evaluate form) as [|a rest].
  - split; [|split; [reflexivity|simpl; lia]].
    split; [|reflexivity].
    intros _ n Hn He. apply (proj2 (Hin n)). auto.
  - split; [|split].
    + split.
      * simpl length. lia.
      * intros H. exfalso. apply (H a); apply (Hin a); left; reflexivity.
    + simpl length. lia.
    + intros _. simpl. destruct (Hhd a rest eq_refl) as (Hr & Hp & Hl).
      split; [lia|]. split; [apply Z.eqb_eq; exact Hp|].
      intros n Hn. apply Z.eqb_neq. apply Hl. lia.
Qed.

Lemma FindExamples_summary_witness :
  examples (FindExamples (Some english_like) 2 1) = "0, 2, 3, 4…"
  /\ examplesCnt (FindExamples (Some english_like) 2 1) = 5.
Proof.
  destruct (FindExamples_summary english_like 2 1 eq_refl) as (H1 & H2 & _).
  split.
  - rewrite H1. vm_compute. reflexivity.
  - rewrite H2. vm_compute. reflexivity.
Defined.

(** ** Labels *)

Lemma form_label_closed (evaluate : Z -> Z) (formsCount : Z) (form : nat) :
  1 < formsCount ->
  form_label (Some evaluate) formsCount form
  = Describe formsCount (Z.of_nat form)
      (mkExamples (examples_text (form_examples evaluate (Z.of_nat form)))
         (hd (-1) (form_examples evaluate (Z.of_nat form)))
         (Z.of_nat (Nat.min 5 (length (form_examples evaluate (Z.of_nat form)))))).
Proof. intros H. unfold form_label. rewrite FindExamples_closed by exact H. reflexivity. Qed.

Lemma form_examples_nil (evaluate : Z -> Z) (form : Z) :
  (forall n, 0 <= n < 1000 -> evaluate n <> form) ->
  form_examples evaluate form = [].
Proof.
  intros H. destruct (form_examples evaluate form) as [|a rest] eqn:E; [reflexivity|].
  assert (Ha : In a (form_examples evaluate form)) by (rewrite E; left; reflexivity).
  apply form_examples_In in Ha as [Hr He]. destruct (H a Hr He).
Qed.

(** X2: a form that the evaluator gives to no number of 0..999 (a form the
    grammar never uses, for instance when the evaluator only returns other
    indexes) is labelled "Form f" with its index, whenever there is not
    exactly one form. *)
Theorem form_label_unused (calc : option (Z -> Z)) (formsCount : Z) (form : nat) :
  formsCount <> 1 ->
  (forall evaluate n, calc = Some evaluate -> 0 <= n < 1000 ->
                      evaluate n <> Z.of_nat form) ->
  form_label calc formsCount form
  = String.append "Form " (wxString.of_int (Z.of_nat form)).
Proof.
  intros Hfc Hno.
  assert (Hs : FindExamples calc formsCount (Z.of_nat form) = mkExamples "" (-1) 0).
  { unfold FindExamples. destruct calc as [evaluate|]; [|reflexivity].
    destruct (1 <? formsCount) eqn:E; [|reflexivity].
    rewrite ScanExamples_filter.
    change (List.filter _ (seqZ 0 (Z.of_nat 1000)))
      with (form_examples evaluate (Z.of_nat form)).
    rewrite form_examples_nil; [reflexivity|].
    intros n Hn. apply (Hno evaluate n eq_refl Hn). }
  unfold form_label. rewrite Hs. unfold Describe.
  destruct (formsCount =? 1) eqn:E; [apply Z.eqb_eq in E; contradiction|].
  reflexivity.
Qed.

(** An evaluator that only knows forms 0 and 1, asked for three forms. *)
Lemma form_label_unused_witness :
  form_label (Some english_like) 3 2 = "Form 2".
Proof.
  apply (form_label_unused (Some english_like) 3 2); [discriminate|].
  intros evaluate n [= <-] _. unfold english_like. destruct (n =? 1); discriminate.
Defined.

(** X3: with an evaluator and more than one form, a form whose only example
    in 0..999 is [k] is labelled "Singular" when there are two forms and [k]
    is 1, and otherwise "Zero", "One" or "Two" for [k] = 0, 1, 2 and "n = k"
    for every other [k]. *)
Theorem form_label_single_example (evaluate : Z -> Z) (formsCount : Z)
    (form : nat) (k : Z) :
  1 < formsCount ->
  form_examples evaluate (Z.of_nat form) = [k] ->
  form_label (Some evaluate) formsCount form
  = if (formsCount =? 2) && (k =? 1) then "Singular"
    else if k =? 0 then "Zero"
    else if k =? 1 then "One"
    else if k =? 2 then "Two"
    else String.append "n = " (wxString.of_int k).
Proof.
  intros Hfc Hk. rewrite form_label_closed by exact Hfc. rewrite Hk.
  unfold Describe. cbn [examples examplesCnt firstExample hd length Nat.min examples_text].
  destruct (formsCount =? 1) eqn:E; [apply Z.eqb_eq in E; lia|].
  reflexivity.
Qed.

(** Three forms of which form 0 is used for 1 only: "One", not "Singular". *)
Lemma form_label_single_example_witness :
  form_label (Some (fun n => if n =? 1 then 0 else if n <? 5 then 1 else 2)) 3 0
  = "One".
Proof.
  exact (form_label_single_example
           (fun n => if n =? 1 then 0 else if n <? 5 then 1 else 2) 3 0 1
           eq_refl eq_refl).
Defined.

(** X4: with two forms, a form whose examples in 0..999 are exactly 0 and 1
    is labelled "Singular"; a form with five or more examples is labelled
    "Plural" when its first example is 0 or 2, "Other" when its first example
    is 3 or more, and with the list of its examples when its first example
    is 1. *)
Theorem form_label_two_forms (evaluate : Z -> Z) (form : nat) :
  (form_examples evaluate (Z.of_nat form) = [0; 1] ->
   form_label (Some evaluate) 2 form = "Singular")
  /\ (forall first rest,
        form_examples evaluate (Z.of_nat form) = first :: rest ->
        (4 <= length rest)%nat ->
        form_label (Some evaluate) 2 form
        = if first =? 1
          then String.append "n → " (examples_text (first :: rest))
          else if (first =? 0) || (first =? 2) then "Plural" else "Other").
Proof.
  split.
  - intros H. rewrite form_label_closed by lia. rewrite H. reflexivity.
  - intros first rest H Hlen. rewrite form_label_closed by lia. rewrite H.
    destruct rest as [|b [|c [|d [|e rest]]]]; simpl in Hlen; try lia.
    unfold Describe.
    cbn [examples examplesCnt firstExample hd length Nat.min].
    change (Z.of_nat 5) with 5. cbn [Z.eqb Pos.eqb andb negb maxExamplesCnt].
    destruct (first =? 1); reflexivity.
Qed.

(** The evaluator that uses form 0 for 0 and 1 and form 1 above. *)
Lemma form_label_two_forms_witness :
  form_label (Some (fun n => if n <=? 1 then 0 else 1)) 2 0 = "Singular"
  /\ form_label (Some (fun n => if n <=? 1 then 0 else 1)) 2 1 = "Plural".
Proof.
  split.
  - exact (proj1 (form_label_two_forms (fun n => if n <=? 1 then 0 else 1) 0)
             eq_refl).
  - refine (proj2 (form_label_two_forms (fun n => if n <=? 1 then 0 else 1) 1)
              2 _ _ _); [vm_compute; reflexivity|].
    vm_compute. lia.
Defined.

(** X5: with more than two forms, a form with two or more examples in 0..999
    is labelled with the arrow and the list of its examples: the first four,
    and the ellipsis when there are five or more. *)
Theorem form_label_listed (evaluate : Z -> Z) (formsCount : Z) (form : nat)
    (a b : Z) (rest : list Z) :
  2 < formsCount ->
  form_examples evaluate (Z.of_nat form) = a :: b :: rest ->
  form_label (Some evaluate) formsCount form
  = String.append "n → " (examples_text (a :: b :: rest)).
Proof.
  intros Hfc H. rewrite form_label_closed by lia. rewrite H.
  unfold Describe.
  destruct (formsCount =? 1) eqn:E1; [apply Z.eqb_eq in E1; lia|].
  destruct (formsCount =? 2) eqn:E2; [apply Z.eqb_eq in E2; lia|].
  destruct rest as [|c [|d [|e rest]]]; reflexivity.
Qed.

(** The Slavic-like grammar: form 1 is used for 2, 3, 4, 22, 23, 24, ... *)
Lemma form_label_listed_witness :
  form_label (Some slavic_like) 3 1 = "n → 2, 3, 4, 22…".
Proof.
  erewrite (form_label_listed slavic_like 3 1 2 3); cycle 1.
  - lia.
  - vm_compute. reflexivity.
  - vm_compute. reflexivity.
Defined.

(** ** The singular form *)

Lemma AddPluralForm_fold_singular (calc : option (Z -> Z)) (formsCount : Z)
    (k a : nat) (ea : EditingArea) :
  length (m_textTransPlural ea) = a ->
  m_textTransSingularForm (fold_left (AddPluralForm calc formsCount) (seq a k) ea)
  = last_singular_form calc formsCount (seq a k) (m_textTransSingularForm ea).
Proof.
  revert a ea. induction k as [|k IH]; intros a ea Ha; [reflexivity|].
  cbn [seq fold_left last_singular_form].
  rewrite (IH (S a)).
  - unfold last_singular_form. f_equal.
    unfold AddPluralForm, is_singular_form. rewrite Ha.
    destruct (_ && _); destruct ea; reflexivity.
  - unfold AddPluralForm. destruct (_ && _); destruct ea; unfold_area;
      revert Ha; unfold_area; intros <-; rewrite length_app; simpl; lia.
Qed.

(** The test of line 503 passes exactly for a form whose only example in
    0..999 is 1. *)
Lemma is_singular_form_true (calc : option (Z -> Z)) (formsCount : Z) (form : nat) :
  is_singular_form calc formsCount form = true <->
  exists evaluate, calc = Some evaluate /\ 1 < formsCount
                   /\ form_examples evaluate (Z.of_nat form) = [1].
Proof.
  unfold is_singular_form. split.
  - destruct calc as [evaluate|]; [|discriminate].
    destruct (Z.lt_ge_cases 1 formsCount) as [Hfc|Hfc].
    + rewrite FindExamples_closed by exact Hfc.
      cbn [examplesCnt firstExample].
      intros H. apply andb_true_iff in H as [Hc Hf].
      apply Z.eqb_eq in Hc. apply Z.eqb_eq in Hf.
      exists evaluate. split; [reflexivity|]. split; [exact Hfc|].
      destruct (form_examples evaluate (Z.of_nat form)) as [|a [|b rest]].
      * simpl in Hc. lia.
      * simpl in Hf. congruence.
      * destruct rest as [|c [|d [|e rest]]]; simpl in Hc; lia.
    + unfold FindExamples. destruct (1 <? formsCount) eqn:E;
        [apply Z.ltb_lt in E; lia|discriminate].
  - intros (evaluate & -> & Hfc & H).
    rewrite FindExamples_closed by exact Hfc. rewrite H. reflexivity.
Qed.

(** At most one form passes the test. *)
Lemma is_singular_form_unique (calc : option (Z -> Z)) (formsCount : Z) (f g : nat) :
  is_singular_form calc formsCount f = true ->
  is_singular_form calc formsCount g = true -> f = g.
Proof.
  intros Hf Hg.
  apply is_singular_form_true in Hf as (ev & -> & _ & Hf).
  apply is_singular_form_true in Hg as (ev' & [= <-] & _ & Hg).
  assert (H1 : In 1 (form_examples ev (Z.of_nat f))) by (rewrite Hf; left; reflexivity).
  assert (H2 : In 1 (form_examples ev (Z.of_nat g))) by (rewrite Hg; left; reflexivity).
  apply form_examples_In in H1 as [_ H1]. apply form_examples_In in H2 as [_ H2].
  lia.
Qed.

Lemma last_singular_form_cases (calc : option (Z -> Z)) (formsCount : Z)
    (forms : list nat) (acc : option nat) :
  (last_singular_form calc formsCount forms acc = acc
   /\ forall f, In f forms -> is_singular_form calc formsCount f = false)
  \/ (exists f, last_singular_form calc formsCount forms acc = Some f
                /\ In f forms /\ is_singular_form calc formsCount f = true).
Proof.
  revert acc. induction forms as [|f forms IH]; intros acc.
  - left. split; [reflexivity|]. intros f [].
  - cbn [last_singular_form fold_left].
    fold (last_singular_form calc formsCount forms
            (if is_singular_form calc formsCount f then Some f else acc)).
    destruct (IH (if is_singular_form calc formsCount f then Some f else acc))
      as [[Hr Hall]|(g & Hr & Hin & Hq)].
    + destruct (is_singular_form calc formsCount f) eqn:Hq.
      * right. exists f. split; [exact Hr|]. split; [left; reflexivity|exact Hq].
      * left. split; [exact Hr|]. intros g [<-|Hin]; [exact Hq|apply Hall, Hin].
    + right. exists g. split; [exact Hr|]. split; [right; exact Hin|exact Hq].
Qed.

(** The singular form after a rebuild, from the loop and the fallback of
    lines 507-510. *)
Lemma RecreatePluralTextCtrls_singular (catalog : Catalog) (ea : EditingArea)
    (pages : list wxStr) :
  m_pluralNotebook ea = Some pages ->
  m_textTransSingularForm (RecreatePluralTextCtrls catalog ea)
  = match last_singular_form (PluralFormsCalculator_make catalog)
            (GetPluralFormsCount catalog)
            (seq 0 (Z.to_nat (GetPluralFormsCount catalog))) None with
    | Some f => Some f
    | None => if Nat.eqb (Z.to_nat (GetPluralFormsCount catalog)) 0
              then None else Some 0%nat
    end.
Proof.
  intros Hn. unfold RecreatePluralTextCtrls. rewrite Hn.
  match goal with
  | |- context [fold_left ?f ?l ?e] =>
      pose proof (AddPluralForm_fold_singular (PluralFormsCalculator_make catalog)
                    (GetPluralFormsCount catalog)
                    (Z.to_nat (GetPluralFormsCount catalog)) 0 e eq_refl) as Hs;
      destruct (AddPluralForm_fold (PluralFormsCalculator_make catalog)
                  (GetPluralFormsCount catalog) l e) as [_ Hc];
      set (ea1 := fold_left f l e) in *
  end.
  change (m_textTransSingularForm (EA.set_textTransSingularForm None ?x))
    with (@None nat) in Hs.
  rewrite length_seq in Hc.
  change (m_textTransPlural (EA.set_textTransSingularForm None ?x))
    with (@nil TranslationTextCtrl) in Hc.
  rewrite <- Hs. clearbody ea1. clear Hs.
  destruct ea1 as [a b c d e f g h [i|] j k]; simpl in *; [reflexivity|].
  subst h. destruct (Z.to_nat (GetPluralFormsCount catalog)); reflexivity.
Qed.

(** X6: after a rebuild on an area with a notebook, the singular form is
    unset only when there are no forms.  Otherwise it points at one of the
    new controls: at the form that passes the test of line 503 (its only
    example in 0..999 is 1), of which there is at most one, and at form 0
    when no form passes. *)
Theorem RecreatePluralTextCtrls_singular_form (catalog : Catalog)
    (ea : EditingArea) (pages : list wxStr) :
  m_pluralNotebook ea = Some pages ->
  let calc := PluralFormsCalculator_make catalog in
  let formsCount := GetPluralFormsCount catalog in
  let n := Z.to_nat formsCount in
  let ea' := RecreatePluralTextCtrls catalog ea in
  match m_textTransSingularForm ea' with
  | None => n = 0%nat
  | Some i =>
    (i < n)%nat
    /\ m_textTransPlural ea' !! i = Some (mkTextCtrl "" true)
    /\ (is_singular_form calc formsCount i = true
        \/ i = 0%nat
           /\ forall f, (f < n)%nat -> is_singular_form calc formsCount f = false)
    /\ (forall f, (f < n)%nat -> is_singular_form calc formsCount f = true -> i = f)
    /\ (is_singular_form calc formsCount i = true <->
        exists evaluate, calc = Some evaluate /\ 1 < formsCount
                         /\ form_examples evaluate (Z.of_nat i) = [1])
  end.
Proof.
  intros Hn calc formsCount n ea'. subst ea'.
  rewrite (RecreatePluralTextCtrls_singular _ _ _ Hn).
  destruct (RecreatePluralTextCtrls_pages catalog ea pages Hn) as [_ ->].
  fold calc formsCount n.
  destruct (last_singular_form_cases calc formsCount (seq 0 n) None)
    as [[-> Hall]|(f & -> & Hin & Hq)].
  - destruct n as [|n'] eqn:En; [reflexivity|]. cbn [Nat.eqb].
    split; [lia|]. split; [reflexivity|].
    split; [|split].
    + right. split; [reflexivity|]. intros f Hf. apply Hall, in_seq. lia.
    + intros f Hf Hq. rewrite Hall in Hq by (apply in_seq; lia). discriminate.
    + apply is_singular_form_true.
  - apply in_seq in Hin.
    split; [lia|]. split; [apply lookup_replicate_2; lia|].
    split; [left; exact Hq|]. split.
    + intros g _ Hg. exact (is_singular_form_unique _ _ _ _ Hq Hg).
    + apply is_singular_form_true.
Qed.

(** The Slavic-like grammar with three forms: no form is used for 1 only,
    so the singular form is form 0; the English-like grammar: form 0. *)
Lemma RecreatePluralTextCtrls_singular_form_witness :
  m_textTransSingularForm
    (RecreatePluralTextCtrls (mkCatalog (Some slavic_like) 3) (edit_area []))
  = Some 0%nat
  /\ m_textTransSingularForm
       (RecreatePluralTextCtrls (mkCatalog (Some (fun n => if n =? 1 then 1 else 0)) 2)
          (edit_area []))
     = Some 1%nat.
Proof.
  split.
  - pose proof (RecreatePluralTextCtrls_singular_form
                  (mkCatalog (Some slavic_like) 3) (edit_area []) [] eq_refl) as H.
    cbv zeta in H.
    destruct (m_textTransSingularForm _) as [i|]; [|discriminate H].
    destruct H as (Hlt & _ & [Hq|[-> _]] & _); [|reflexivity].
    destruct i as [|[|[|i]]].
    + reflexivity.
    + vm_compute in Hq. discriminate.
    + vm_compute in Hq. discriminate.
    + exfalso. cbn in Hlt. lia.
  - pose proof (RecreatePluralTextCtrls_singular_form
                  (mkCatalog (Some (fun n => if n =? 1 then 1 else 0)) 2)
                  (edit_area []) [] eq_refl) as H.
    cbv zeta in H.
    destruct (m_textTransSingularForm _) as [i|]; [|discriminate H].
    destruct H as (_ & _ & _ & Hu & _).
    f_equal. apply (Hu 1%nat); [simpl; lia|vm_compute; reflexivity].
Defined.

(** ** What a rebuild keeps *)




(** ** More on pull *)

(** The commit of lines 708-732 in closed form, for [oldIsTranslated] read
    from the item itself. *)
Lemma CommitUpdate_closed (item : CatalogItem) (newfuzzy allTranslated : bool)
    (ea : EditingArea) :
  let item' := CommittedItem item newfuzzy (m_isTranslated item) allTranslated
                 (m_dontAutoclearFuzzyStatus ea) in
  CommitUpdate item newfuzzy (m_isTranslated item) allTranslated ea
  = mkEditingArea (Some item') (Item.IsFuzzy item') (m_dontAutoclearFuzzyStatus ea)
      (m_textOrig ea) (m_textOrigPlural ea) (m_textTrans ea) (m_pluralNotebook ea)
      (m_textTransPlural ea) (m_textTransSingularForm ea)
      (OnUpdatedFromTextCtrl ea)
      (trace ea
       ++ commit_events item' (m_isFuzzy item) (m_isTranslated item)
            (OnUpdatedFromTextCtrl ea)).
Proof.
  unfold CommitUpdate, CommittedItem, commit_events.
  destruct ea as [a b dont d e f g h i cb tr], item as [s hp p t fz trd md pt].
  unfold_area. cbn.
  destruct newfuzzy, fz, dont, trd, allTranslated, cb; cbn;
    rewrite <- ?app_assoc; reflexivity.
Qed.

(** The item in which a pull has stored the texts has the flags of before. *)
Lemma stored_item_flags (item : CatalogItem) (texts : list wxStr) :
  let item2 := if wxString.array_eqb texts (StoredTexts item) then item
               else StoreTexts texts item in
  m_isFuzzy item2 = m_isFuzzy item /\ m_isTranslated item2 = m_isTranslated item
  /\ m_string item2 = m_string item /\ m_hasPlural item2 = m_hasPlural item
  /\ m_plural item2 = m_plural item.
Proof.
  simpl. destruct (wxString.array_eqb _ _); [repeat split|].
  unfold StoreTexts. destruct (Item.HasPlural item); repeat split.
Qed.

(** A pull that passes the test of line 703, in closed form. *)
Lemma UpdateFromTextCtrl_accepted_closed (ea : EditingArea) (item : CatalogItem)
    (texts : list wxStr) :
  m_associatedList ea = Some item ->
  EnteredTexts item ea = Some texts ->
  pull_is_noop item texts ea = false ->
  let item2 := if wxString.array_eqb texts (StoredTexts item) then item
               else StoreTexts texts item in
  let item' := CommittedItem item2 (m_associatedToolbar ea) (m_isTranslated item)
                 (all_nonempty texts) (m_dontAutoclearFuzzyStatus ea) in
  UpdateFromTextCtrl ea
  = Some (mkEditingArea (Some item') (Item.IsFuzzy item')
            (m_dontAutoclearFuzzyStatus ea)
            (m_textOrig ea) (m_textOrigPlural ea) (m_textTrans ea)
            (m_pluralNotebook ea) (m_textTransPlural ea)
            (m_textTransSingularForm ea) (OnUpdatedFromTextCtrl ea)
            (trace ea
             ++ EvUpdateFromTextCtrl
                :: commit_events item' (m_isFuzzy item) (m_isTranslated item)
                     (OnUpdatedFromTextCtrl ea))).
Proof.
  intros Hb Ht Hn item2 item'.
  rewrite (UpdateFromTextCtrl_spec _ _ _ Hb Ht), Hn. f_equal.
  fold item2.
  destruct (stored_item_flags item texts) as (Hf & Htr & _). fold item2 in Hf, Htr.
  unfold Item.IsTranslated. rewrite <- Htr.
  rewrite CommitUpdate_closed. rewrite Hf.
  subst item'. rewrite <- Htr.
  destruct ea; unfold_area. rewrite <- app_assoc. reflexivity.
Qed.

(** X8: a pull on a bound item that passes the test of line 703 stores the
    normalised slot texts, marks the item modified and not pre-translated,
    and leaves the fuzzy flag at false when the toggle agrees with the old
    flag and clearing is not suppressed, at the state of the toggle
    otherwise.  The toggle of the toolbar is set to the new fuzzy flag, the
    list is refreshed once, and the callback, when set, is called once with
    the new item and with [statisticsChanged] true exactly when the fuzzy
    flag or the translated flag of the item changed. *)
Theorem UpdateFromTextCtrl_accepted (ea : EditingArea) (item : CatalogItem)
    (texts : list wxStr) :
  m_associatedList ea = Some item ->
  EnteredTexts item ea = Some texts ->
  pull_is_noop item texts ea = false ->
  exists ea' item',
    UpdateFromTextCtrl ea = Some ea'
    /\ m_associatedList ea' = Some item'
    /\ StoredTexts item' = texts
    /\ Item.IsModified item' = true
    /\ Item.IsPreTranslated item' = false
    /\ Item.IsFuzzy item'
       = (if Bool.eqb (m_associatedToolbar ea) (Item.IsFuzzy item)
             && negb (m_dontAutoclearFuzzyStatus ea)
          then false else m_associatedToolbar ea)
    /\ m_associatedToolbar ea' = Item.IsFuzzy item'
    /\ trace ea'
       = trace ea
         ++ [EvUpdateFromTextCtrl; EvSetFuzzy (Item.IsFuzzy item');
             EvRefreshSelectedItems]
         ++ (if OnUpdatedFromTextCtrl ea
             then [EvOnUpdatedFromTextCtrl item'
                     (negb (Bool.eqb (Item.IsFuzzy item) (Item.IsFuzzy item'))
                      || negb (Bool.eqb (Item.IsTranslated item)
                                 (Item.IsTranslated item')))]
             else []).
Proof.
  intros Hb Ht Hn.
  rewrite (UpdateFromTextCtrl_accepted_closed _ _ _ Hb Ht Hn).
  destruct (stored_item_flags item texts) as (Hf & _).
  eexists. eexists. split; [reflexivity|]. split; [reflexivity|].
  split.
  { destruct (wxString.array_eqb texts (StoredTexts item)) eqn:E.
    - apply array_eqb_eq in E. rewrite E. reflexivity.
    - transitivity (StoredTexts (StoreTexts texts item));
        [reflexivity|apply (StoredTexts_StoreTexts _ _ _ Ht)]. }
  split; [reflexivity|]. split; [reflexivity|].
  split; [unfold Item.IsFuzzy, CommittedItem; simpl; rewrite Hf; reflexivity|].
  split; reflexivity.
Qed.

(** The translated item "Hello" with translation "Hi" after its text was
    emptied. *)
Lemma UpdateFromTextCtrl_accepted_witness :
  exists ea' item',
    UpdateFromTextCtrl
      (bound_area (sample_item "Hello" ["Hi"] false true) false "" []) = Some ea'
    /\ m_associatedList ea' = Some item'
    /\ StoredTexts item' = [""]
    /\ Item.IsModified item' = true
    /\ Item.IsFuzzy item' = false
    /\ m_associatedToolbar ea' = Item.IsFuzzy item'.
Proof.
  destruct (UpdateFromTextCtrl_accepted
              (bound_area (sample_item "Hello" ["Hi"] false true) false "" [])
              (sample_item "Hello" ["Hi"] false true) [""]
              eq_refl eq_refl eq_refl)
    as (ea' & item' & H1 & H2 & H3 & H4 & _ & H6 & H7 & _).
  exists ea', item'. split; [exact H1|]. split; [exact H2|].
  split; [exact H3|]. split; [exact H4|]. split; [exact H6|exact H7].
Defined.

(** X9: when the fuzzy toggle differs from the fuzzy flag of the bound item
    (the user has switched it), the pull always commits and the item takes
    the state of the toggle, whether or not a text changed and whether or
    not clearing is suppressed; the toggle stays as the user set it. *)
Theorem UpdateFromTextCtrl_toggle (ea : EditingArea) (item : CatalogItem)
    (texts : list wxStr) :
  m_associatedList ea = Some item ->
  EnteredTexts item ea = Some texts ->
  m_associatedToolbar ea <> Item.IsFuzzy item ->
  exists ea' item',
    UpdateFromTextCtrl ea = Some ea'
    /\ m_associatedList ea' = Some item'
    /\ Item.IsFuzzy item' = m_associatedToolbar ea
    /\ m_associatedToolbar ea' = m_associatedToolbar ea
    /\ Item.IsModified item' = true.
Proof.
  intros Hb Ht Hne.
  assert (Hn : pull_is_noop item texts ea = false).
  { unfold pull_is_noop. destruct (Bool.eqb _ _) eqn:E; [|reflexivity].
    apply Bool.eqb_prop in E. congruence. }
  rewrite (UpdateFromTextCtrl_accepted_closed _ _ _ Hb Ht Hn).
  destruct (stored_item_flags item texts) as (Hf & _).
  eexists. eexists. split; [reflexivity|]. split; [reflexivity|].
  assert (E : Item.IsFuzzy
                (CommittedItem
                   (if wxString.array_eqb texts (StoredTexts item) then item
                    else StoreTexts texts item)
                   (m_associatedToolbar ea) (m_isTranslated item)
                   (all_nonempty texts) (m_dontAutoclearFuzzyStatus ea))
              = m_associatedToolbar ea).
  { unfold Item.IsFuzzy, CommittedItem in *. simpl. rewrite Hf.
    destruct (m_associatedToolbar ea), (m_isFuzzy item); simpl;
      try reflexivity; congruence. }
  split; [exact E|]. split; [exact E|]. reflexivity.
Qed.

(** A fuzzy item whose toggle was switched off, with clearing suppressed
    and the text untouched. *)
Lemma UpdateFromTextCtrl_toggle_witness :
  exists ea' item',
    UpdateFromTextCtrl
      (mkEditingArea (Some (sample_item "Hello" ["Hi"] true true)) false true
         "" "" (Some (mkTextCtrl "Hi" true)) (Some []) [] None true [])
    = Some ea'
    /\ m_associatedList ea' = Some item'
    /\ Item.IsFuzzy item' = false.
Proof.
  destruct (UpdateFromTextCtrl_toggle
              (mkEditingArea (Some (sample_item "Hello" ["Hi"] true true)) false
                 true "" "" (Some (mkTextCtrl "Hi" true)) (Some []) [] None true [])
              (sample_item "Hello" ["Hi"] true true) ["Hi"] eq_refl eq_refl)
    as (ea' & item' & H1 & H2 & H3 & _).
  - discriminate.
  - exists ea', item'. split; [exact H1|]. split; [exact H2|exact H3].
Defined.

(** A pull leaves the controls as they are. *)
Lemma UpdateFromTextCtrl_controls (ea ea' : EditingArea) :
  UpdateFromTextCtrl ea = Some ea' ->
  m_textTrans ea' = m_textTrans ea /\ m_textTransPlural ea' = m_textTransPlural ea.
Proof.
  intros H. destruct (m_associatedList ea) as [item|] eqn:Hb.
  - destruct (EnteredTexts item ea) as [texts|] eqn:Ht.
    + rewrite (UpdateFromTextCtrl_spec _ _ _ Hb Ht) in H. injection H as <-.
      destruct (pull_is_noop item texts ea).
      * destruct ea; split; reflexivity.
      * match goal with
        | |- context [CommitUpdate ?i ?f ?o ?a ?e] =>
            destruct (CommitUpdate_controls i f o a e) as [-> ->]
        end.
        destruct ea; split; reflexivity.
    + unfold UpdateFromTextCtrl in H.
      replace (m_associatedList (EA.emit EvUpdateFromTextCtrl ea))
        with (Some item) in H by (rewrite <- Hb; destruct ea; reflexivity).
      rewrite ReadTranslations_None in H; [discriminate|].
      rewrite <- Ht. apply EnteredTexts_ext; destruct ea; reflexivity.
  - unfold UpdateFromTextCtrl in H.
    replace (m_associatedList (EA.emit EvUpdateFromTextCtrl ea))
      with (@None CatalogItem) in H by (rewrite <- Hb; destruct ea; reflexivity).
    injection H as <-. destruct ea; split; reflexivity.
Qed.

(** A pull keeps the source text, the plural text and the plural mark of
    the bound item, and keeps an area without bound item so. *)
Lemma UpdateFromTextCtrl_item_kept (ea ea' : EditingArea) :
  UpdateFromTextCtrl ea = Some ea' ->
  match m_associatedList ea, m_associatedList ea' with
  | Some item, Some item' =>
    Item.GetString item' = Item.GetString item
    /\ Item.GetPluralString item' = Item.GetPluralString item
    /\ Item.HasPlural item' = Item.HasPlural item
  | None, None => True
  | _, _ => False
  end.
Proof.
  intros H. destruct (m_associatedList ea) as [item|] eqn:Hb.
  - destruct (EnteredTexts item ea) as [texts|] eqn:Ht.
    + destruct (pull_is_noop item texts ea) eqn:Hn.
      * rewrite (UpdateFromTextCtrl_spec _ _ _ Hb Ht), Hn in H.
        injection H as <-.
        replace (m_associatedList (EA.emit EvUpdateFromTextCtrl ea))
          with (Some item) by (rewrite <- Hb; destruct ea; reflexivity).
        repeat split.
      * rewrite (UpdateFromTextCtrl_accepted_closed _ _ _ Hb Ht Hn) in H.
        injection H as <-. cbn.
        destruct (stored_item_flags item texts) as (_ & _ & Hs & Hp & Hpl).
        repeat split; assumption.
    + unfold UpdateFromTextCtrl in H.
      replace (m_associatedList (EA.emit EvUpdateFromTextCtrl ea))
        with (Some item) in H by (rewrite <- Hb; destruct ea; reflexivity).
      rewrite ReadTranslations_None in H; [discriminate|].
      rewrite <- Ht. apply EnteredTexts_ext; destruct ea; reflexivity.
  - unfold UpdateFromTextCtrl in H.
    replace (m_associatedList (EA.emit EvUpdateFromTextCtrl ea))
      with (@None CatalogItem) in H by (rewrite <- Hb; destruct ea; reflexivity).
    injection H as <-.
    replace (m_associatedList (EA.emit EvUpdateFromTextCtrl ea))
      with (@None CatalogItem) by (rewrite <- Hb; destruct ea; reflexivity).
    exact I.
Qed.

(** X10: a pull with no bound item does nothing at all, also on an area
    without controls.  Whatever a pull does, it never changes a control
    (text or handler), the suppression flag, the source texts, the pages or
    the singular form; the trace of before is a prefix of the trace after;
    and the item bound afterwards has the source text, the plural text and
    the plural mark of the item bound before. *)
Theorem UpdateFromTextCtrl_frame :
  (forall ea : EditingArea,
     m_associatedList ea = None ->
     UpdateFromTextCtrl ea = Some (EA.emit EvUpdateFromTextCtrl ea))
  /\ (forall ea ea' : EditingArea,
        UpdateFromTextCtrl ea = Some ea' ->
        m_textTrans ea' = m_textTrans ea
        /\ m_textTransPlural ea' = m_textTransPlural ea
        /\ m_dontAutoclearFuzzyStatus ea' = m_dontAutoclearFuzzyStatus ea
        /\ m_textOrig ea' = m_textOrig ea
        /\ m_textOrigPlural ea' = m_textOrigPlural ea
        /\ m_pluralNotebook ea' = m_pluralNotebook ea
        /\ m_textTransSingularForm ea' = m_textTransSingularForm ea
        /\ (exists evs, trace ea' = trace ea ++ EvUpdateFromTextCtrl :: evs)
        /\ match m_associatedList ea, m_associatedList ea' with
           | Some item, Some item' =>
             Item.GetString item' = Item.GetString item
             /\ Item.GetPluralString item' = Item.GetPluralString item
             /\ Item.HasPlural item' = Item.HasPlural item
           | None, None => True
           | _, _ => False
           end).
Proof.
  split.
  - intros ea Hb. unfold UpdateFromTextCtrl.
    replace (m_associatedList (EA.emit EvUpdateFromTextCtrl ea))
      with (@None CatalogItem) by (rewrite <- Hb; destruct ea; reflexivity).
    reflexivity.
  - intros ea ea' H. destruct (m_associatedList ea) as [item|] eqn:Hb.
    + destruct (EnteredTexts item ea) as [texts|] eqn:Ht.
      * destruct (pull_is_noop item texts ea) eqn:Hn.
        -- rewrite (UpdateFromTextCtrl_spec _ _ _ Hb Ht), Hn in H.
           injection H as <-.
           replace (m_associatedList (EA.emit EvUpdateFromTextCtrl ea))
             with (Some item) by (rewrite <- Hb; destruct ea; reflexivity).
           destruct ea; unfold_area. repeat split. exists []. reflexivity.
        -- rewrite (UpdateFromTextCtrl_accepted_closed _ _ _ Hb Ht Hn) in H.
           injection H as <-. cbn.
           destruct (stored_item_flags item texts) as (_ & _ & Hs & Hp & Hpl).
           repeat split; try assumption. eexists. reflexivity.
      * unfold UpdateFromTextCtrl in H.
        replace (m_associatedList (EA.emit EvUpdateFromTextCtrl ea))
          with (Some item) in H by (rewrite <- Hb; destruct ea; reflexivity).
        rewrite ReadTranslations_None in H; [discriminate|].
        rewrite <- Ht. apply EnteredTexts_ext; destruct ea; reflexivity.
    + unfold UpdateFromTextCtrl in H.
      replace (m_associatedList (EA.emit EvUpdateFromTextCtrl ea))
        with (@None CatalogItem) in H by (rewrite <- Hb; destruct ea; reflexivity).
      injection H as <-.
      replace (m_associatedList (EA.emit EvUpdateFromTextCtrl ea))
        with (@None CatalogItem) by (rewrite <- Hb; destruct ea; reflexivity).
      destruct ea; unfold_area. repeat split. exists []. reflexivity.
Qed.

(** An area in template mode, with nothing bound. *)
Lemma UpdateFromTextCtrl_frame_witness :
  UpdateFromTextCtrl
    (mkEditingArea None false false "" "" None None [] None false [])
  = Some (mkEditingArea None false false "" "" None None [] None false
            [EvUpdateFromTextCtrl]).
Proof.
  exact (proj1 UpdateFromTextCtrl_frame
           (mkEditingArea None false false "" "" None None [] None false [])
           eq_refl).
Defined.

(** After every pull on a bound item with plural, the translations of the
    item are the normalised texts of the plural controls. *)
Lemma UpdateFromTextCtrl_stores_plural (ea : EditingArea) (item : CatalogItem) :
  m_associatedList ea = Some item ->
  Item.HasPlural item = true ->
  exists ea' item',
    UpdateFromTextCtrl ea = Some ea'
    /\ m_associatedList ea' = Some item'
    /\ m_translations item'
       = map (fun c => PreprocessEnteredTextForItem item (plainText c))
           (m_textTransPlural ea)
    /\ m_textTransPlural ea' = m_textTransPlural ea
    /\ m_textTrans ea' = m_textTrans ea.
Proof.
  intros Hb Hp.
  assert (Ht : EnteredTexts item ea
               = Some (map (fun c => PreprocessEnteredTextForItem item (plainText c))
                         (m_textTransPlural ea)))
    by (unfold EnteredTexts; rewrite Hp; reflexivity).
  destruct (UpdateFromTextCtrl_stores ea item _ Hb Ht)
    as (ea' & item' & Hpull & Hb' & Hs & _).
  exists ea', item'. split; [exact Hpull|]. split; [exact Hb'|].
  destruct (UpdateFromTextCtrl_controls _ _ Hpull) as [Hc1 Hc2].
  split; [|split; assumption].
  pose proof (UpdateFromTextCtrl_item_kept ea ea' Hpull) as Hfr.
  rewrite Hb, Hb' in Hfr. destruct Hfr as (_ & _ & Hhp).
  unfold StoredTexts in Hs. rewrite Hhp, Hp in Hs. exact Hs.
Qed.

(** X11: for a bound item with plural and any number [n] of plural
    controls, a push followed at once by a pull leaves the item with exactly
    [n] translations: the normalised first [n] stored translations, followed
    by empty translations when fewer than [n] were stored.  Stored
    translations past the controls are thus dropped from the item. *)
Theorem push_then_pull_plural_count (item : CatalogItem) (flags : Z)
    (ea : EditingArea) :
  m_associatedList ea = Some item ->
  Item.HasPlural item = true ->
  let n := length (m_textTransPlural ea) in
  exists ea' item',
    push_then_pull item flags ea = Some ea'
    /\ m_associatedList ea' = Some item'
    /\ Item.GetTranslations item'
       = map (PreprocessEnteredTextForItem item)
           (take n (Item.GetTranslations item)
            ++ replicate (n - Item.GetNumberOfTranslations item) "")
    /\ Item.GetNumberOfTranslations item' = n.
Proof.
  intros Hb Hp n.
  unfold push_then_pull. rewrite (UpdateToTextCtrl_plural _ _ _ Hp). simpl.
  match goal with
  | |- context [UpdateFromTextCtrl ?e] =>
      destruct (UpdateFromTextCtrl_stores_plural e item Hb Hp)
        as (ea' & item' & Hpull & Hb' & Htr & _)
  end.
  exists ea', item'. split; [exact Hpull|]. split; [exact Hb'|].
  simpl in Htr. rewrite map_map in Htr. simpl in Htr.
  rewrite <- (map_map (Item.GetTranslation item)
                (PreprocessEnteredTextForItem item)) in Htr.
  rewrite GetTranslation_seq in Htr.
  unfold Item.GetTranslations, Item.GetNumberOfTranslations. fold n in Htr.
  split; [exact Htr|].
  rewrite Htr, length_map, length_app, length_take, length_replicate. lia.
Qed.

(** Three stored translations and two controls: the third is dropped. *)
Lemma push_then_pull_plural_count_witness :
  exists ea' item',
    push_then_pull (sample_plural_item ["a"; "b"; "c"]) 0
      (bound_area (sample_plural_item ["a"; "b"; "c"]) false "" [""; ""])
    = Some ea'
    /\ m_associatedList ea' = Some item'
    /\ Item.GetTranslations item' = ["a"; "b"].
Proof.
  destruct (push_then_pull_plural_count (sample_plural_item ["a"; "b"; "c"]) 0
              (bound_area (sample_plural_item ["a"; "b"; "c"]) false "" [""; ""])
              eq_refl eq_refl)
    as (ea' & item' & H1 & H2 & H3 & _).
  exists ea', item'. split; [exact H1|]. split; [exact H2|exact H3].
Defined.

(** ** Copying from the singular form *)

Lemma UpdateFromTextCtrl_trace (ea ea' : EditingArea) :
  UpdateFromTextCtrl ea = Some ea' ->
  exists evs, trace ea' = trace ea ++ EvUpdateFromTextCtrl :: evs.
Proof.
  intros H. destruct (m_associatedList ea) as [item|] eqn:Hb.
  - destruct (EnteredTexts item ea) as [texts|] eqn:Ht.
    + destruct (pull_is_noop item texts ea) eqn:Hn.
      * rewrite (UpdateFromTextCtrl_spec _ _ _ Hb Ht), Hn in H.
        injection H as <-. exists []. destruct ea; reflexivity.
      * rewrite (UpdateFromTextCtrl_accepted_closed _ _ _ Hb Ht Hn) in H.
        injection H as <-. eexists. reflexivity.
    + unfold UpdateFromTextCtrl in H.
      replace (m_associatedList (EA.emit EvUpdateFromTextCtrl ea))
        with (Some item) in H by (rewrite <- Hb; destruct ea; reflexivity).
      rewrite ReadTranslations_None in H; [discriminate|].
      rewrite <- Ht. apply EnteredTexts_ext; destruct ea; reflexivity.
  - unfold UpdateFromTextCtrl in H.
    replace (m_associatedList (EA.emit EvUpdateFromTextCtrl ea))
      with (@None CatalogItem) in H by (rewrite <- Hb; destruct ea; reflexivity).
    injection H as <-. exists []. destruct ea; reflexivity.
Qed.

(** A write of a text into an existing plural control outside the scope of
    a disabler, the handler of the control being enabled: the text is
    written and [UpdateFromTextCtrl] runs on the result. *)
Lemma SetPlainTextUserWritten_enabled (i : nat) (value : wxStr) (ea : EditingArea)
    (txt : TranslationTextCtrl) :
  m_textTransPlural ea !! i = Some txt ->
  evtHandlerEnabled txt = true ->
  SetPlainTextUserWritten (TextTransPlural i) value ea
  = UpdateFromTextCtrl
      (EA.emit (EvSetPlainTextUserWritten (TextTransPlural i) value)
         (EA.set_textTransPlural
            (<[i := mkTextCtrl value true]> (m_textTransPlural ea)) ea)).
Proof.
  intros Hc He. unfold SetPlainTextUserWritten, ProcessTextEvent.
  cbn [EA.ctrl]. rewrite Hc. cbn [mbind option_bind EA.put_ctrl]. rewrite He.
  assert (Hi : (i < length (m_textTransPlural ea))%nat)
    by (eapply lookup_lt_Some; exact Hc).
  replace (m_textTransPlural (EA.emit _ (EA.set_textTransPlural _ ea)))
    with (<[i := mkTextCtrl value true]> (m_textTransPlural ea))
    by (destruct ea; reflexivity).
  rewrite list_lookup_insert_eq by exact Hi. reflexivity.
Qed.

(** X12: [CopyFromSingular] does nothing when no translation control has
    the focus or when there is no singular form.  With the focus on plural
    control [i], whose handler is enabled, and a bound item with plural, the
    text of the singular form is written into control [i] and, the write not
    being guarded, [UpdateFromTextCtrl] runs: afterwards the translations of
    the item are the normalised texts of the plural controls, so that
    translation [i] is the normalised text of the singular form. *)
Theorem CopyFromSingular_updates_item :
  (forall ea : EditingArea, CopyFromSingular None ea = Some ea)
  /\ (forall (focus : option Ctrl) (ea : EditingArea),
        m_textTransSingularForm ea = None -> CopyFromSingular focus ea = Some ea)
  /\ (forall (i s : nat) (ea : EditingArea) (item : CatalogItem)
             (src txt : TranslationTextCtrl),
        m_associatedList ea = Some item ->
        Item.HasPlural item = true ->
        m_textTransSingularForm ea = Some s ->
        m_textTransPlural ea !! s = Some src ->
        m_textTransPlural ea !! i = Some txt ->
        evtHandlerEnabled txt = true ->
        exists ea' item',
          CopyFromSingular (Some (TextTransPlural i)) ea = Some ea'
          /\ m_textTransPlural ea'
             = <[i := mkTextCtrl (plainText src) true]> (m_textTransPlural ea)
          /\ m_associatedList ea' = Some item'
          /\ Item.GetTranslations item'
             = map (fun c => PreprocessEnteredTextForItem item (plainText c))
                 (m_textTransPlural ea')
          /\ Item.GetTranslation item' i
             = PreprocessEnteredTextForItem item (plainText src)
          /\ In EvUpdateFromTextCtrl (trace ea')).
Proof.
  split; [reflexivity|]. split.
  - intros focus ea H. unfold CopyFromSingular. rewrite H.
    destruct focus; reflexivity.
  - intros i s ea item src txt Hb Hp Hs Hsrc Hi He.
    unfold CopyFromSingular. rewrite Hs, Hsrc. cbn [mbind option_bind].
    rewrite (SetPlainTextUserWritten_enabled _ _ _ _ Hi He).
    match goal with
    | |- context [UpdateFromTextCtrl ?e] =>
        assert (Hb1 : m_associatedList e = Some item)
          by (rewrite <- Hb; destruct ea; reflexivity);
        assert (Hc1 : m_textTransPlural e
                      = <[i := mkTextCtrl (plainText src) true]>
                          (m_textTransPlural ea))
          by (destruct ea; reflexivity);
        destruct (UpdateFromTextCtrl_stores_plural e item Hb1 Hp)
          as (ea' & item' & Hpull & Hb' & Htr & Hc & _);
        destruct (UpdateFromTextCtrl_trace _ _ Hpull) as [evs Hev]
    end.
    rewrite Hc1 in Htr, Hc.
    exists ea', item'. split; [exact Hpull|]. split; [exact Hc|].
    split; [exact Hb'|]. rewrite Hc.
    split; [exact Htr|]. split.
    + unfold Item.GetTranslation. rewrite Htr.
      change (map ?f ?l) with (f <$> l). rewrite list_lookup_fmap.
      rewrite list_lookup_insert_eq by (eapply lookup_lt_Some; exact Hi).
      reflexivity.
    + rewrite Hev. apply in_or_app. right. left. reflexivity.
Qed.

(** Two plural controls, the first being the singular form, with the focus
    on the second. *)
Lemma CopyFromSingular_updates_item_witness :
  exists ea' item',
    CopyFromSingular (Some (TextTransPlural 1))
      (mkEditingArea (Some (sample_plural_item ["file"; ""])) false false "" ""
         (Some (mkTextCtrl "" true)) (Some ["Singular"; "Plural"])
         [mkTextCtrl "file" true; mkTextCtrl "" true] (Some 0%nat) true [])
    = Some ea'
    /\ m_associatedList ea' = Some item'
    /\ Item.GetTranslations item' = ["file"; "file"].
Proof.
  destruct (proj2 (proj2 CopyFromSingular_updates_item) 1%nat 0%nat
              (mkEditingArea (Some (sample_plural_item ["file"; ""])) false false
                 "" "" (Some (mkTextCtrl "" true)) (Some ["Singular"; "Plural"])
                 [mkTextCtrl "file" true; mkTextCtrl "" true] (Some 0%nat) true [])
              (sample_plural_item ["file"; ""])
              (mkTextCtrl "file" true) (mkTextCtrl "" true)
              eq_refl eq_refl eq_refl eq_refl eq_refl eq_refl)
    as (ea' & item' & H1 & H2 & H3 & H4 & _).
  exists ea', item'. split; [exact H1|]. split; [exact H3|].
  rewrite H4, H2. reflexivity.
Defined.

(** ** More on push *)

(** X13: the push of an item without plural shows the source text, resets
    the suppression flag and leaves the plural source text and the plural
    controls as they were.  When [m_textTrans] exists it gets translation 0
    of the item (the empty text when the item has no translation) in one
    scoped write and ends with its handler enabled; when it does not exist
    nothing is written. *)
Theorem UpdateToTextCtrl_singular_slot (item : CatalogItem) (flags : Z)
    (ea : EditingArea) :
  Item.HasPlural item = false ->
  exists ea',
    UpdateToTextCtrl item flags ea = Some ea'
    /\ m_textOrig ea' = Item.GetString item
    /\ m_dontAutoclearFuzzyStatus ea' = false
    /\ m_textOrigPlural ea' = m_textOrigPlural ea
    /\ m_textTransPlural ea' = m_textTransPlural ea
    /\ match m_textTrans ea with
       | Some _ =>
         m_textTrans ea' = Some (mkTextCtrl (Item.GetTranslation item 0) true)
         /\ trace ea'
            = trace ea ++ scoped_write flags TextTrans (Item.GetTranslation item 0)
       | None => m_textTrans ea' = None /\ trace ea' = trace ea
       end
    /\ (Item.GetTranslations item = [] -> Item.GetTranslation item 0 = "").
Proof.
  intros Hp. rewrite (UpdateToTextCtrl_singular _ _ _ Hp).
  eexists. split; [reflexivity|]. simpl.
  repeat (split; [reflexivity|]). split.
  - destruct (m_textTrans ea); split; try reflexivity. apply app_nil_r.
  - unfold Item.GetTranslations, Item.GetTranslation. intros ->. reflexivity.
Qed.

(** An item without stored translation, shown over a stale text. *)
Lemma UpdateToTextCtrl_singular_slot_witness :
  exists ea',
    UpdateToTextCtrl (sample_item "Hello" [] false false) 0
      (bound_area (sample_item "Hello" [] false false) false "stale" ["kept"])
    = Some ea'
    /\ m_textTrans ea' = Some (mkTextCtrl "" true)
    /\ m_textTransPlural ea' = [mkTextCtrl "kept" true].
Proof.
  destruct (UpdateToTextCtrl_singular_slot (sample_item "Hello" [] false false) 0
              (bound_area (sample_item "Hello" [] false false) false "stale" ["kept"])
              eq_refl)
    as (ea' & H1 & _ & _ & _ & H5 & H6 & _).
  exists ea'. split; [exact H1|]. split; [exact (proj1 H6)|exact H5].
Defined.

(** X14: what a push shows for an item does not depend on an earlier push:
    after a push of [a] and then of [b], the slot texts that a pull reads
    for [b], the source text and the suppression flag are those after a push
    of [b] alone; when [a] and [b] both have a plural or both have none, so
    are all controls and the plural source text. *)
Theorem UpdateToTextCtrl_overrides (a b : CatalogItem) (fa fb : Z)
    (ea : EditingArea) :
  exists ea1 ea2 ea3,
    UpdateToTextCtrl a fa ea = Some ea1
    /\ UpdateToTextCtrl b fb ea1 = Some ea2
    /\ UpdateToTextCtrl b fb ea = Some ea3
    /\ RawTexts b ea2 = RawTexts b ea3
    /\ m_textOrig ea2 = m_textOrig ea3
    /\ m_dontAutoclearFuzzyStatus ea2 = m_dontAutoclearFuzzyStatus ea3
    /\ (Item.HasPlural a = Item.HasPlural b ->
        m_textTrans ea2 = m_textTrans ea3
        /\ m_textTransPlural ea2 = m_textTransPlural ea3
        /\ m_textOrigPlural ea2 = m_textOrigPlural ea3).
Proof.
  destruct (Item.HasPlural a) eqn:Ha, (Item.HasPlural b) eqn:Hb.
  - rewrite (UpdateToTextCtrl_plural a _ _ Ha), (UpdateToTextCtrl_plural b _ ea Hb).
    eexists. eexists. eexists. split; [reflexivity|].
    rewrite (UpdateToTextCtrl_plural b _ _ Hb).
    split; [reflexivity|]. split; [reflexivity|].
    unfold RawTexts. rewrite Hb. cbn.
    rewrite !length_map, !length_seq. repeat split.
  - rewrite (UpdateToTextCtrl_plural a _ _ Ha), (UpdateToTextCtrl_singular b _ ea Hb).
    eexists. eexists. eexists. split; [reflexivity|].
    rewrite (UpdateToTextCtrl_singular b _ _ Hb).
    split; [reflexivity|]. split; [reflexivity|].
    unfold RawTexts. rewrite Hb. cbn.
    repeat split; discriminate.
  - rewrite (UpdateToTextCtrl_singular a _ _ Ha), (UpdateToTextCtrl_plural b _ ea Hb).
    eexists. eexists. eexists. split; [reflexivity|].
    rewrite (UpdateToTextCtrl_plural b _ _ Hb).
    split; [reflexivity|]. split; [reflexivity|].
    unfold RawTexts. rewrite Hb. cbn.
    repeat split; discriminate.
  - rewrite (UpdateToTextCtrl_singular a _ _ Ha), (UpdateToTextCtrl_singular b _ ea Hb).
    eexists. eexists. eexists. split; [reflexivity|].
    rewrite (UpdateToTextCtrl_singular b _ _ Hb).
    split; [reflexivity|]. split; [reflexivity|].
    unfold RawTexts. rewrite Hb. cbn.
    destruct (m_textTrans ea); repeat split.
Qed.

(** A write into [m_textTrans] outside the scope of a disabler, its handler
    being enabled. *)
Lemma SetPlainTextUserWritten_TextTrans (value : wxStr) (ea : EditingArea)
    (txt : TranslationTextCtrl) :
  m_textTrans ea = Some txt ->
  evtHandlerEnabled txt = true ->
  SetPlainTextUserWritten TextTrans value ea
  = UpdateFromTextCtrl
      (EA.emit (EvSetPlainTextUserWritten TextTrans value)
         (EA.set_textTrans (Some (mkTextCtrl value true)) ea)).
Proof.
  intros Hc He. unfold SetPlainTextUserWritten, ProcessTextEvent.
  cbn [EA.ctrl]. rewrite Hc. cbn [mbind option_bind EA.put_ctrl]. rewrite He.
  replace (m_textTrans (EA.emit _ (EA.set_textTrans _ ea)))
    with (Some (mkTextCtrl value true)) by (destruct ea; reflexivity).
  reflexivity.
Qed.

(** X15: a push resets the suppression of the automatic clearing.  For a
    bound fuzzy item without plural and a fuzzy toggle that is on, a push
    followed by an edit of [m_textTrans] whose normalised text differs from
    the stored translation leaves the item not fuzzy, modified and with the
    normalised text as its translation, and switches the toggle off, also
    when the suppression was on before the push. *)
Theorem push_then_edit_clears_fuzzy (item : CatalogItem) (flags : Z)
    (value : wxStr) (ea : EditingArea) (txt : TranslationTextCtrl) :
  m_associatedList ea = Some item ->
  Item.HasPlural item = false ->
  m_textTrans ea = Some txt ->
  Item.IsFuzzy item = true ->
  m_associatedToolbar ea = true ->
  PreprocessEnteredTextForItem item value <> Item.GetTranslation item 0 ->
  exists ea' item',
    push_then_edit item flags TextTrans value ea = Some ea'
    /\ m_associatedList ea' = Some item'
    /\ Item.IsFuzzy item' = false
    /\ m_associatedToolbar ea' = false
    /\ Item.IsModified item' = true
    /\ Item.GetTranslation item' 0 = PreprocessEnteredTextForItem item value.
Proof.
  intros Hb Hp Ht Hf Htb Hne.
  unfold push_then_edit. rewrite (UpdateToTextCtrl_singular _ _ _ Hp).
  cbn [mbind option_bind]. rewrite Ht.
  erewrite SetPlainTextUserWritten_TextTrans; [|reflexivity|reflexivity].
  match goal with
  | |- context [UpdateFromTextCtrl ?e] => set (ea1 := e)
  end.
  assert (Hb1 : m_associatedList ea1 = Some item) by exact Hb.
  assert (Ht1 : EnteredTexts item ea1
                = Some [PreprocessEnteredTextForItem item value])
    by (unfold EnteredTexts; rewrite Hp; reflexivity).
  assert (Hn : pull_is_noop item [PreprocessEnteredTextForItem item value] ea1
               = false).
  { unfold pull_is_noop, StoredTexts. rewrite Hp. simpl.
    destruct (wxString.eqb _ _) eqn:E; [|apply andb_false_r].
    apply eqb_eq in E. contradiction. }
  rewrite (UpdateFromTextCtrl_accepted_closed _ _ _ Hb1 Ht1 Hn).
  eexists. eexists. split; [reflexivity|]. split; [reflexivity|].
  assert (Hs : wxString.array_eqb [PreprocessEnteredTextForItem item value]
                 (StoredTexts item) = false).
  { unfold StoredTexts. rewrite Hp. simpl.
    destruct (wxString.eqb _ _) eqn:E; [|reflexivity].
    apply eqb_eq in E. contradiction. }
  rewrite Hs. unfold Item.IsFuzzy, Item.IsModified, Item.GetTranslation in *.
  unfold CommittedItem, StoreTexts. rewrite Hp. cbn.
  change (m_associatedToolbar ea1) with (m_associatedToolbar ea).
  rewrite Htb, Hf. cbn.
  repeat split. destruct (m_translations item); reflexivity.
Qed.

(** The fuzzy item "Hello" with translation "Hi", with the suppression on
    before the push, edited to "Hi!". *)
Lemma push_then_edit_clears_fuzzy_witness :
  exists ea' item',
    push_then_edit (sample_item "Hello" ["Hi"] true true) 0 TextTrans "Hi!"
      (mkEditingArea (Some (sample_item "Hello" ["Hi"] true true)) true true
         "" "" (Some (mkTextCtrl "" true)) (Some []) [] None true [])
    = Some ea'
    /\ m_associatedList ea' = Some item'
    /\ Item.IsFuzzy item' = false
    /\ Item.GetTranslation item' 0 = "Hi!".
Proof.
  destruct (push_then_edit_clears_fuzzy (sample_item "Hello" ["Hi"] true true) 0
              "Hi!"
              (mkEditingArea (Some (sample_item "Hello" ["Hi"] true true)) true true
                 "" "" (Some (mkTextCtrl "" true)) (Some []) [] None true [])
              (mkTextCtrl "" true) eq_refl eq_refl eq_refl eq_refl eq_refl)
    as (ea' & item' & H1 & H2 & H3 & _ & _ & H6).
  - discriminate.
  - exists ea', item'. split; [exact H1|]. split; [exact H2|].
    split; [exact H3|exact H6].
Defined.

(** A push of an item with plural followed by a push of another one. *)
Lemma UpdateToTextCtrl_overrides_witness :
  exists ea1 ea2 ea3,
    UpdateToTextCtrl (sample_plural_item ["a"; "b"]) 0
      (bound_area (sample_plural_item ["x"]) false "" ["old1"; "old2"]) = Some ea1
    /\ UpdateToTextCtrl (sample_plural_item ["x"]) 1 ea1 = Some ea2
    /\ UpdateToTextCtrl (sample_plural_item ["x"]) 1
         (bound_area (sample_plural_item ["x"]) false "" ["old1"; "old2"]) = Some ea3
    /\ m_textTransPlural ea2 = m_textTransPlural ea3.
Proof.
  destruct (UpdateToTextCtrl_overrides (sample_plural_item ["a"; "b"])
              (sample_plural_item ["x"]) 0 1
              (bound_area (sample_plural_item ["x"]) false "" ["old1"; "old2"]))
    as (ea1 & ea2 & ea3 & H1 & H2 & H3 & _ & _ & _ & H7).
  exists ea1, ea2, ea3. split; [exact H1|]. split; [exact H2|].
  split; [exact H3|]. exact (proj1 (proj2 (H7 eq_refl))).
Defined.
